(** * Course Scheduler (src/App.js): time utilities, conflict checker and
      registration store, embedded as Rocq functions.

    The React component [App] keeps one [data] object (users and courses) and
    one [message] string in component state.  Every handler reads the [data]
    of the current render and calls [setData] / [setMessage] at most once, so
    a handler is a function from the component state to the next one.  The
    only handler that can raise is [registerCourse] (a property read on the
    [undefined] result of [Array.prototype.find]); it returns a [completion]. *)

From Stdlib Require Import List String Ascii ZArith Bool Lia.
From Stdlib Require Import DecimalString Decimal.
Import ListNotations.

Local Open Scope string_scope.
Local Open Scope Z_scope.

(** ** JavaScript values used by the scheduler *)

(** Numbers produced by [timeToMinutes]: an integer, or [NaN].  Clock times
    are whole minutes, so the fractional and infinite doubles do not occur. *)
Inductive number : Type :=
  | NaN
  | Num (z : Z).

Definition num_mul (a b : number) : number :=
  match a, b with
  | Num x, Num y => Num (x * y)
  | _, _ => NaN
  end.

Definition num_add (a b : number) : number :=
  match a, b with
  | Num x, Num y => Num (x + y)
  | _, _ => NaN
  end.

(** [a < b]: false as soon as one side is [NaN]. *)
Definition num_lt (a b : number) : bool :=
  match a, b with
  | Num x, Num y => x <? y
  | _, _ => false
  end.

(** [Math.max] and [Math.min] return [NaN] when an argument is [NaN]. *)
Definition Math_max (a b : number) : number :=
  match a, b with
  | Num x, Num y => Num (Z.max x y)
  | _, _ => NaN
  end.

Definition Math_min (a b : number) : number :=
  match a, b with
  | Num x, Num y => Num (Z.min x y)
  | _, _ => NaN
  end.

(** [s.split(sep)] for a one-character separator: never the empty array. *)
Fixpoint split (sep : ascii) (s : string) : list string :=
  match s with
  | EmptyString => [EmptyString]
  | String ch rest =>
      if Ascii.eqb ch sep then EmptyString :: split sep rest
      else match split sep rest with
           | [] => [String ch EmptyString]
           | piece :: pieces => String ch piece :: pieces
           end
  end.

Definition digit_value (ch : ascii) : option Z :=
  let n := Z.of_nat (nat_of_ascii ch) in
  if (48 <=? n) && (n <=? 57) then Some (n - 48) else None.

Fixpoint digits_value (s : string) (acc : Z) : option Z :=
  match s with
  | EmptyString => Some acc
  | String ch rest =>
      match digit_value ch with
      | Some d => digits_value rest (10 * acc + d)
      | None => None
      end
  end.

(** [Number(s)] on the strings a clock field holds: the empty string is [0],
    a run of decimal digits is its value, and any other text is [NaN].  The
    remaining numeric literals of the language (signs, fractions, exponents,
    radix prefixes, [Infinity], surrounding blanks) are not modelled. *)
Definition Number (s : string) : number :=
  match digits_value s 0 with
  | Some z => Num z
  | None => NaN
  end.

(** ** Records of the store *)

Module Course.
Record t : Type := mk {
  id : string;
  name : string;
  code : string;
  description : string;
  days : list string;
  start : string;
  end_ : string;
  dateRange : string;
  (** [None] when the property is missing; falsy together with [Some 0]. *)
  seats : option Z
}.
End Course.

(** Admin and student accounts are the same kind of object; [registrations]
    is absent ([None]) on admins and possibly on stored students. *)
Module User.
Record t : Type := mk {
  username : string;
  password : string;
  name : string;
  registrations : option (list string)
}.

(** The object spread [{ ...u, registrations: regs }]. *)
Definition with_registrations (u : t) (regs : list string) : t :=
  {| username := username u; password := password u; name := name u;
     registrations := Some regs |}.
End User.

Record Users : Type := mkUsers {
  admins : list User.t;
  students : list User.t
}.

Record Data : Type := mkData {
  users : Users;
  courses : list Course.t
}.

(** The two pieces of component state the handlers write. *)
Record AppState : Type := mkState {
  data : Data;
  message : string
}.

Definition setData (d : Data) (st : AppState) : AppState :=
  {| data := d; message := message st |}.

Definition setMessage (m : string) (st : AppState) : AppState :=
  {| data := data st; message := m |}.

Inductive completion : Type :=
  | Returns (st : AppState)
  | ThrowsTypeError.

(** ** Array helpers *)

(** [arr.includes(x)] on an array of strings. *)
Definition includes (arr : list string) (x : string) : bool :=
  existsb (String.eqb x) arr.

(** [arr || []]. *)
Definition or_empty (arr : option (list string)) : list string :=
  match arr with
  | Some l => l
  | None => []
  end.

(** [arr?.includes(x)] used as a condition: [undefined] is falsy. *)
Definition optional_includes (arr : option (list string)) (x : string) : bool :=
  match arr with
  | Some l => includes l x
  | None => false
  end.

(** ** Time utilities *)

(** [const [hh, mm] = t.split(":").map(Number); return hh * 60 + mm;]
    A missing array element is [undefined], which arithmetic turns into
    [NaN]. *)
Definition timeToMinutes (t : string) : number :=
  let parts := map Number (split ":" t) in
  let hh := nth 0 parts NaN in
  let mm := nth 1 parts NaN in
  num_add (num_mul hh (Num 60)) mm.

Definition timesOverlap (aStart aEnd bStart bEnd : number) : bool :=
  num_lt (Math_max aStart bStart) (Math_min aEnd bEnd).

(** ** Conflict checker *)

Definition checkConflict (courseA courseB : Course.t) : bool :=
  let daysIntersection :=
    existsb (fun d => includes (Course.days courseB) d) (Course.days courseA) in
  if negb daysIntersection then false
  else timesOverlap (timeToMinutes (Course.start courseA))
                    (timeToMinutes (Course.end_ courseA))
                    (timeToMinutes (Course.start courseB))
                    (timeToMinutes (Course.end_ courseB)).

(** ** Registration store: admin actions *)

Definition find_course (cid : string) (d : Data) : option Course.t :=
  find (fun c => String.eqb (Course.id c) cid) (courses d).

Definition find_user (uname : string) (l : list User.t) : option User.t :=
  find (fun u => String.eqb (User.username u) uname) l.

Definition addCourse (course : Course.t) (st : AppState) : AppState :=
  match find_course (Course.id course) (data st) with
  | Some _ => setMessage "Course with same ID already exists." st
  | None =>
      let newData :=
        {| users := users (data st);
           courses := courses (data st) ++ [course] |} in
      setMessage "Course added" (setData newData st)
  end.

Definition updateCourse (updated : Course.t) (st : AppState) : AppState :=
  let newCourses :=
    map (fun c => if String.eqb (Course.id c) (Course.id updated)
                  then updated else c)
        (courses (data st)) in
  setMessage "Course updated"
    (setData {| users := users (data st); courses := newCourses |} st).

Definition deleteCourse (id : string) (st : AppState) : AppState :=
  let newStudents :=
    map (fun s =>
           User.with_registrations s
             match User.registrations s with
             | Some regs => filter (fun r => negb (String.eqb r id)) regs
             | None => []
             end)
        (students (users (data st))) in
  let newCourses :=
    filter (fun c => negb (String.eqb (Course.id c) id)) (courses (data st)) in
  setMessage "Course deleted and registrations updated"
    (setData {| users := {| admins := admins (users (data st));
                            students := newStudents |};
                courses := newCourses |} st).

Definition addUser (type : string) (user : User.t) (st : AppState) : AppState :=
  if String.eqb type "admin" then
    match find_user (User.username user) (admins (users (data st))) with
    | Some _ => setMessage "Admin username taken" st
    | None =>
        setMessage "Admin added"
          (setData {| users := {| admins := admins (users (data st)) ++ [user];
                                  students := students (users (data st)) |};
                      courses := courses (data st) |} st)
    end
  else
    match find_user (User.username user) (students (users (data st))) with
    | Some _ => setMessage "Student username taken" st
    | None =>
        setMessage "Student added"
          (setData {| users := {| admins := admins (users (data st));
                                  students := students (users (data st))
                                              ++ [User.with_registrations user []] |};
                      courses := courses (data st) |} st)
    end.

(** ** Registration store: student actions *)

(** [students.reduce((acc, s) => acc + (s.registrations?.includes(courseId) ? 1 : 0), 0)] *)
Definition registrationsCount (courseId : string) (d : Data) : Z :=
  fold_left
    (fun acc s =>
       acc + (if optional_includes (User.registrations s) courseId then 1 else 0))
    (students (users d)) 0.

(** [course.seats || 9999]: a missing or zero [seats] is falsy. *)
Definition seats_or_default (course : Course.t) : Z :=
  match Course.seats course with
  | Some n => if n =? 0 then 9999 else n
  | None => 9999
  end.

Definition registerCourse (studentUsername courseId : string) (st : AppState)
  : completion :=
  match find_course courseId (data st) with
  | None => Returns (setMessage "Course not found" st)
  | Some course =>
      if seats_or_default course <=? registrationsCount courseId (data st)
      then Returns (setMessage "No seats available" st)
      else
        match find_user studentUsername (students (users (data st))) with
        | None => ThrowsTypeError
        | Some student =>
            let studentRegs := or_empty (User.registrations student) in
            let regCourses :=
              filter (fun c => includes studentRegs (Course.id c))
                     (courses (data st)) in
            let conflict :=
              existsb (fun rc => checkConflict rc course) regCourses in
            if conflict
            then Returns (setMessage "Cannot register due to a schedule conflict" st)
            else
              let newStudents :=
                map (fun s =>
                       if String.eqb (User.username s) studentUsername
                       then User.with_registrations s
                              (or_empty (User.registrations s) ++ [courseId])
                       else s)
                    (students (users (data st))) in
              Returns
                (setMessage "Registered successfully"
                   (setData {| users := {| admins := admins (users (data st));
                                           students := newStudents |};
                               courses := courses (data st) |} st))
        end
  end.

Definition unregisterCourse (studentUsername courseId : string) (st : AppState)
  : AppState :=
  let newStudents :=
    map (fun s =>
           if String.eqb (User.username s) studentUsername
           then User.with_registrations s
                  (filter (fun r => negb (String.eqb r courseId))
                          (or_empty (User.registrations s)))
           else s)
        (students (users (data st))) in
  setMessage "Unregistered"
    (setData {| users := {| admins := admins (users (data st));
                            students := newStudents |};
                courses := courses (data st) |} st).

(** ** The rejection messages, under the names the specification gives them *)

Definition DuplicateIdError : string := "Course with same ID already exists.".
Definition CourseNotFoundError : string := "Course not found".
Definition SeatsFullError : string := "No seats available".
Definition ConflictError : string := "Cannot register due to a schedule conflict".
Definition DuplicateAdminUsernameError : string := "Admin username taken".
Definition DuplicateStudentUsernameError : string := "Student username taken".

(** ** The default data set of the source *)

Definition CSE101 : Course.t :=
  {| Course.id := "CSE101"; Course.name := "Introduction to Programming";
     Course.code := "CSE101";
     Course.description := "Basics of programming in Python: variables, loops, functions.";
     Course.days := ["Mon"; "Wed"]; Course.start := "09:00"; Course.end_ := "10:30";
     Course.dateRange := "2025-12-01 to 2026-03-30"; Course.seats := Some 30 |}.

Definition MAT201 : Course.t :=
  {| Course.id := "MAT201"; Course.name := "Discrete Mathematics";
     Course.code := "MAT201";
     Course.description := "Logic, sets, relations, combinatorics and graph theory.";
     Course.days := ["Tue"; "Thu"]; Course.start := "11:00"; Course.end_ := "12:30";
     Course.dateRange := "2025-12-01 to 2026-03-30"; Course.seats := Some 25 |}.

Definition defaultData : Data :=
  {| users :=
       {| admins :=
            [ User.mk "admin1" "admin1" "Admin One" None;
              User.mk "admin2" "admin2" "Admin Two" None ];
          students :=
            [ User.mk "student1" "student1" "Student One" (Some []);
              User.mk "student2" "student2" "Student Two" (Some []) ] |};
     courses := [CSE101; MAT201] |}.

(** ** Predicates used to state the properties, and sample stores *)

(** Courses to exercise the boundary at ten o'clock: all on Monday. *)
Definition monday_course (id start end_ : string) : Course.t :=
  {| Course.id := id; Course.name := id; Course.code := id;
     Course.description := ""; Course.days := ["Mon"];
     Course.start := start; Course.end_ := end_;
     Course.dateRange := ""; Course.seats := Some 30 |}.

(** The hours of CSE101 on the two days CSE101 does not meet. *)
Definition tuesday_same_hours : Course.t :=
  {| Course.id := "T"; Course.name := "T"; Course.code := "T";
     Course.description := ""; Course.days := ["Tue"; "Thu"];
     Course.start := "09:00"; Course.end_ := "10:30";
     Course.dateRange := ""; Course.seats := Some 30 |}.

(** Some account of the list [l] carries the username [uname]. *)
Definition username_taken (uname : string) (l : list User.t) : Prop :=
  exists u, In u l /\ User.username u = uname.

(** Some course of the store carries the identifier [cid]. *)
Definition course_exists (cid : string) (d : Data) : Prop :=
  exists c, In c (courses d) /\ Course.id c = cid.

(** A course that is not in the default data. *)
Definition PHY301 : Course.t :=
  {| Course.id := "PHY301"; Course.name := "Mechanics"; Course.code := "PHY301";
     Course.description := ""; Course.days := ["Fri"];
     Course.start := "14:00"; Course.end_ := "15:30";
     Course.dateRange := ""; Course.seats := Some 20 |}.

Definition defaultState : AppState := {| data := defaultData; message := "" |}.

(** The collection [addUser] looks the username up in and appends to: the
    admins for the type ["admin"], the students for every other type. *)
Definition target_collection (type : string) (us : Users) : list User.t :=
  if String.eqb type "admin" then admins us else students us.

(** The message [addUser] rejects a taken username with, by role. *)
Definition DuplicateUsernameError (type : string) : string :=
  if String.eqb type "admin" then DuplicateAdminUsernameError
  else DuplicateStudentUsernameError.

(** An account named like an existing student, carrying a stale list. *)
Definition student1_namesake : User.t :=
  User.mk "student1" "secret" "Namesake" (Some ["CSE101"]).

(** The student [s] has [cid] in the registration list. *)
Definition registered (cid : string) (s : User.t) : bool :=
  optional_includes (User.registrations s) cid.

(** Seat usage as the specification words it: the number of students whose
    registration list contains [cid]. *)
Definition seat_usage (cid : string) (d : Data) : nat :=
  List.length (filter (registered cid) (students (users d))).

(** The handler ended normally and left the message [err]. *)
Definition fails_with (err : string) (r : completion) : Prop :=
  exists st', r = Returns st' /\ message st' = err.

(** The seat cap of a course that has one, and [9999] for a course whose
    [seats] is missing. *)
Definition seat_cap (course : Course.t) : Z :=
  match Course.seats course with
  | Some n => n
  | None => 9999
  end.

(** The seat test with a missing cap read as no limit at all. *)
Definition seats_reached_unlimited (course : Course.t) (usage : nat) : Prop :=
  match Course.seats course with
  | Some n => n <= Z.of_nat usage
  | None => False
  end.

(** A one-seat course taken by the first default student. *)
Definition LAB001 : Course.t :=
  {| Course.id := "LAB001"; Course.name := "Laboratory"; Course.code := "LAB001";
     Course.description := ""; Course.days := ["Fri"];
     Course.start := "09:00"; Course.end_ := "12:00";
     Course.dateRange := ""; Course.seats := Some 1 |}.

Definition labState : AppState :=
  {| data :=
       {| users :=
            {| admins := [];
               students :=
                 [ User.mk "student1" "student1" "Student One" (Some ["LAB001"]);
                   User.mk "student2" "student2" "Student Two" (Some []) ] |};
          courses := [LAB001] |};
     message := "" |}.

(** A course without [seats] and 9999 students registered for it, named
    [s0] to [s9998], followed by one student with no registration. *)
Definition string_of_nat (n : nat) : string :=
  NilEmpty.string_of_uint (Nat.to_uint n).

Definition OPEN100 : Course.t :=
  {| Course.id := "OPEN100"; Course.name := "Open Lecture"; Course.code := "OPEN100";
     Course.description := ""; Course.days := ["Sat"];
     Course.start := "10:00"; Course.end_ := "11:00";
     Course.dateRange := ""; Course.seats := None |}.

Definition enrolled (n : nat) : User.t :=
  User.mk ("s" ++ string_of_nat n) "pw" "Student" (Some ["OPEN100"]).

Definition crowdedState : AppState :=
  {| data :=
       {| users :=
            {| admins := [];
               students :=
                 map enrolled (seq 0 (Z.to_nat 9999))
                 ++ [User.mk "late" "pw" "Late Student" (Some [])] |};
          courses := [OPEN100] |};
     message := "" |}.

(** A course entered without any weekday, and a student registered for it. *)
Definition SEM400 : Course.t :=
  {| Course.id := "SEM400"; Course.name := "Seminar"; Course.code := "SEM400";
     Course.description := ""; Course.days := [];
     Course.start := "09:00"; Course.end_ := "10:00";
     Course.dateRange := ""; Course.seats := Some 30 |}.

Definition seminarState : AppState :=
  {| data :=
       {| users :=
            {| admins := [];
               students :=
                 [ User.mk "student1" "student1" "Student One" (Some ["SEM400"]);
                   User.mk "student2" "student2" "Student Two" (Some []) ] |};
          courses := [SEM400] |};
     message := "" |}.

(** A Monday course inside the hours of CSE101. *)
Definition CSE102 : Course.t := monday_course "CSE102" "09:30" "10:00".

From Stdlib Require Import DecimalNat.

(** ** Session: login and logout *)

(** The [auth] state: [{ type: null, user: null }] when nobody is logged in. *)
Record Auth : Type := mkAuth {
  auth_type : option string;
  auth_user : option User.t
}.

(** The component state the session handlers write besides [data] and
    [message]. *)
Record UiState : Type := mkUi {
  app : AppState;
  auth : Auth;
  view : string
}.

Definition login (type username password : string) (ui : UiState) : UiState :=
  let list :=
    if String.eqb type "admin" then admins (users (data (app ui)))
    else students (users (data (app ui))) in
  match find (fun u => String.eqb (User.username u) username
                       && String.eqb (User.password u) password) list with
  | Some found =>
      {| app := setMessage "" (app ui);
         auth := {| auth_type := Some type; auth_user := Some found |};
         view := if String.eqb type "admin" then "admin-dashboard"
                 else "student-dashboard" |}
  | None =>
      {| app := setMessage "Invalid credentials" (app ui);
         auth := auth ui;
         view := view ui |}
  end.

Definition logout (ui : UiState) : UiState :=
  {| app := app ui;
     auth := {| auth_type := None; auth_user := None |};
     view := "home" |}.

(** ** Student dashboard *)

(** [data.courses.filter((c) => registeredIds.includes(c.id))] with
    [registeredIds = me.registrations || []]. *)
Definition registeredCourses (me : User.t) (d : Data) : list Course.t :=
  filter (fun c => includes (or_empty (User.registrations me)) (Course.id c))
         (courses d).

(** The second button of a course row: Register when the course is not among
    the student's registrations, Unregister when it is. *)
Definition rowAction (me : User.t) (c : Course.t) (st : AppState) : completion :=
  let registered := includes (or_empty (User.registrations me)) (Course.id c) in
  if negb registered then registerCourse (User.username me) (Course.id c) st
  else Returns (unregisterCourse (User.username me) (Course.id c) st).

(** ** Timetable *)

Definition days : list string :=
  ["Mon"; "Tue"; "Wed"; "Thu"; "Fri"; "Sat"; "Sun"].

(** [Math.floor(a / 60)] and [Math.ceil(a / 60)]. *)
Definition floor_div_60 (a : number) : number :=
  match a with
  | Num z => Num (z / 60)
  | NaN => NaN
  end.

Definition ceil_div_60 (a : number) : number :=
  match a with
  | Num z => Num (- ((- z) / 60))
  | NaN => NaN
  end.

(** [a === b] on numbers: [NaN] equals nothing. *)
Definition num_eq (a b : number) : bool :=
  match a, b with
  | Num x, Num y => x =? y
  | _, _ => false
  end.

Definition allTimes (courses : list Course.t) : list number :=
  flat_map (fun c => [timeToMinutes (Course.start c);
                      timeToMinutes (Course.end_ c)])
           courses.

(** [allTimes.length ? Math.floor(Math.min(...allTimes) / 60) : 8] *)
Definition minTime (courses : list Course.t) : number :=
  match allTimes courses with
  | [] => Num 8
  | t :: ts => floor_div_60 (fold_left Math_min ts t)
  end.

(** [allTimes.length ? Math.ceil(Math.max(...allTimes) / 60) : 18] *)
Definition maxTime (courses : list Course.t) : number :=
  match allTimes courses with
  | [] => Num 18
  | t :: ts => ceil_div_60 (fold_left Math_max ts t)
  end.

(** [for (let h = minTime; h <= maxTime; h++) hours.push(h)]: no round of
    the loop when a bound is [NaN]. *)
Definition hours (courses : list Course.t) : list Z :=
  match minTime courses, maxTime courses with
  | Num lo, Num hi => map (fun i => lo + Z.of_nat i) (seq 0 (Z.to_nat (hi - lo + 1)))
  | _, _ => []
  end.

(** The course drawn in the cell of day [d] and hour [h]. *)
Definition cellCourse (courses : list Course.t) (d : string) (h : Z)
  : option Course.t :=
  find (fun c => includes (Course.days c) d
                 && num_eq (floor_div_60 (timeToMinutes (Course.start c))) (Num h))
       courses.

(** ** User actions and the conditions they keep *)

(** One call of a handler of the registration store. *)
Inductive action : Type :=
  | AddCourse (course : Course.t)
  | UpdateCourse (updated : Course.t)
  | DeleteCourse (id : string)
  | AddUser (type : string) (user : User.t)
  | RegisterCourse (studentUsername courseId : string)
  | UnregisterCourse (studentUsername courseId : string).

Definition perform (a : action) (st : AppState) : completion :=
  match a with
  | AddCourse course => Returns (addCourse course st)
  | UpdateCourse updated => Returns (updateCourse updated st)
  | DeleteCourse id => Returns (deleteCourse id st)
  | AddUser type user => Returns (addUser type user st)
  | RegisterCourse studentUsername courseId =>
      registerCourse studentUsername courseId st
  | UnregisterCourse studentUsername courseId =>
      Returns (unregisterCourse studentUsername courseId st)
  end.

(** No two courses of the store share an identifier. *)
Definition unique_course_ids (d : Data) : Prop :=
  NoDup (map Course.id (courses d)).

(** No two admins share a username, and no two students do. *)
Definition unique_usernames (d : Data) : Prop :=
  NoDup (map User.username (admins (users d)))
  /\ NoDup (map User.username (students (users d))).

(** Every registration of every student names a course of the store. *)
Definition registrations_name_courses (d : Data) : Prop :=
  forall s r,
    In s (students (users d)) ->
    In r (or_empty (User.registrations s)) ->
    course_exists r d.


(** The registration list of [s] with [cid] put at its end, as
    [registerCourse] writes it. *)
Definition add_registration (studentUsername cid : string) (s : User.t) : User.t :=
  if String.eqb (User.username s) studentUsername
  then User.with_registrations s (or_empty (User.registrations s) ++ [cid])
  else s.

(** The registration list of [s] without [cid], as [unregisterCourse]
    writes it. *)
Definition remove_registration (studentUsername cid : string) (s : User.t) : User.t :=
  if String.eqb (User.username s) studentUsername
  then User.with_registrations s
         (filter (fun r => negb (String.eqb r cid)) (or_empty (User.registrations s)))
  else s.





(** The string has no colon in it. *)
Definition no_colon (s : string) : Prop :=
  forall ch, In ch (list_ascii_of_string s) -> ch <> ":"%char.

(** * Properties of the time utilities and the conflict checker *)

Example timeToMinutes_0900 : timeToMinutes "09:00" = Num 540.
Proof. reflexivity. Qed.

Example timeToMinutes_no_colon : timeToMinutes "0900" = NaN.
Proof. reflexivity. Qed.

Example timeToMinutes_text : timeToMinutes "ab:cd" = NaN.
Proof. reflexivity. Qed.

Example default_courses_do_not_conflict : checkConflict CSE101 MAT201 = false.
Proof. reflexivity. Qed.

Section ConflictChecker.

Lemma includes_In (arr : list string) (x : string) :
  includes arr x = true <-> In x arr.
Proof.
  unfold includes. rewrite existsb_exists. split.
  - intros [y [Hin Heq]]. apply String.eqb_eq in Heq. now subst.
  - intros Hin. exists x. split; [assumption | apply String.eqb_refl].
Qed.

(** The [some]/[includes] test of [checkConflict] holds exactly when the two
    day arrays have a common element. *)
Lemma daysIntersection_shared (daysA daysB : list string) :
  existsb (fun d => includes daysB d) daysA = true
  <-> exists d, In d daysA /\ In d daysB.
Proof.
  rewrite existsb_exists. split.
  - intros [d [HA HB]]. exists d. split; [assumption |].
    now apply includes_In.
  - intros [d [HA HB]]. exists d. split; [assumption |].
    now apply includes_In.
Qed.

Lemma daysIntersection_sym (daysA daysB : list string) :
  existsb (fun d => includes daysB d) daysA
  = existsb (fun d => includes daysA d) daysB.
Proof.
  apply eq_true_iff_eq. rewrite !daysIntersection_shared.
  split; intros [d [H1 H2]]; exists d; tauto.
Qed.

Lemma Math_max_comm (a b : number) : Math_max a b = Math_max b a.
Proof. destruct a, b; simpl; try reflexivity. now rewrite Z.max_comm. Qed.

Lemma Math_min_comm (a b : number) : Math_min a b = Math_min b a.
Proof. destruct a, b; simpl; try reflexivity. now rewrite Z.min_comm. Qed.

Lemma timesOverlap_sym (aStart aEnd bStart bEnd : number) :
  timesOverlap aStart aEnd bStart bEnd = timesOverlap bStart bEnd aStart aEnd.
Proof.
  unfold timesOverlap.
  now rewrite (Math_max_comm aStart), (Math_min_comm aEnd).
Qed.

Lemma timesOverlap_Num (a b c d : Z) :
  timesOverlap (Num a) (Num b) (Num c) (Num d) = true
  <-> Z.max a c < Z.min b d.
Proof. unfold timesOverlap. simpl. apply Z.ltb_lt. Qed.

(** On numbers the test is the usual one for the half-open intervals
    [[a, b)] and [[c, d)]: some instant lies in both. *)
Lemma timesOverlap_common_instant (a b c d : Z) :
  timesOverlap (Num a) (Num b) (Num c) (Num d) = true
  <-> exists t, (a <= t < b) /\ (c <= t < d).
Proof.
  rewrite timesOverlap_Num. split.
  - intros H. exists (Z.max a c). lia.
  - intros [t Ht]. lia.
Qed.

(** A [NaN] bound makes the test false, whichever argument holds it. *)
Lemma timesOverlap_NaN (a b c d : number) :
  a = NaN \/ b = NaN \/ c = NaN \/ d = NaN ->
  timesOverlap a b c d = false.
Proof.
  unfold timesOverlap.
  intros H. destruct a, b, c, d; try reflexivity.
  destruct H as [H | [H | [H | H]]]; discriminate.
Qed.

(** An interval that ends where the other starts never overlaps it. *)
Lemma timesOverlap_back_to_back (aStart m bEnd : number) :
  timesOverlap aStart m m bEnd = false.
Proof.
  unfold timesOverlap. destruct aStart, m, bEnd; simpl; try reflexivity.
  apply Z.ltb_ge. lia.
Qed.

Lemma checkConflict_spec (courseA courseB : Course.t) :
  checkConflict courseA courseB = true
  <-> (exists d, In d (Course.days courseA) /\ In d (Course.days courseB))
      /\ timesOverlap (timeToMinutes (Course.start courseA))
                      (timeToMinutes (Course.end_ courseA))
                      (timeToMinutes (Course.start courseB))
                      (timeToMinutes (Course.end_ courseB)) = true.
Proof.
  unfold checkConflict. rewrite <- daysIntersection_shared.
  destruct (existsb _ (Course.days courseA)); simpl; intuition congruence.
Qed.

End ConflictChecker.

(** C4. The conflict check is symmetric: for all courses A and B,
    [checkConflict A B] and [checkConflict B A] give the same answer. *)
Theorem checkConflict_symmetric (courseA courseB : Course.t) :
  checkConflict courseA courseB = checkConflict courseB courseA.
Proof.
  unfold checkConflict.
  rewrite (daysIntersection_sym (Course.days courseA) (Course.days courseB)).
  destruct (existsb _ (Course.days courseB)); simpl; [| reflexivity].
  apply timesOverlap_sym.
Qed.

(** C5. Interval overlap is half-open.  On numbers, [timesOverlap] answers
    true exactly when [max aStart bStart < min aEnd bEnd], that is, when some
    instant lies in both [[aStart, aEnd)] and [[bStart, bEnd)].  Two courses of
    which one ends at the minute the other starts do not conflict, and two
    courses that share a day, each with start before end, conflict as soon as
    the first ends one minute after the second starts. *)
Theorem timesOverlap_half_open :
  (forall aStart aEnd bStart bEnd : Z,
      (timesOverlap (Num aStart) (Num aEnd) (Num bStart) (Num bEnd) = true
       <-> Z.max aStart bStart < Z.min aEnd bEnd)
      /\ (timesOverlap (Num aStart) (Num aEnd) (Num bStart) (Num bEnd) = true
          <-> exists t, (aStart <= t < aEnd) /\ (bStart <= t < bEnd)))
  /\ (forall courseA courseB : Course.t,
         timeToMinutes (Course.end_ courseA)
         = timeToMinutes (Course.start courseB) ->
         checkConflict courseA courseB = false)
  /\ (forall (courseA courseB : Course.t) (aStart aEnd bStart bEnd : Z),
         (exists d, In d (Course.days courseA) /\ In d (Course.days courseB)) ->
         timeToMinutes (Course.start courseA) = Num aStart ->
         timeToMinutes (Course.end_ courseA) = Num aEnd ->
         timeToMinutes (Course.start courseB) = Num bStart ->
         timeToMinutes (Course.end_ courseB) = Num bEnd ->
         aStart < aEnd -> bStart < bEnd ->
         aEnd = bStart + 1 ->
         checkConflict courseA courseB = true).
Proof.
  split; [| split].
  - intros aStart aEnd bStart bEnd.
    split; [apply timesOverlap_Num | apply timesOverlap_common_instant].
  - intros courseA courseB Heq. unfold checkConflict.
    rewrite Heq, timesOverlap_back_to_back.
    now destruct (negb _).
  - intros courseA courseB aStart aEnd bStart bEnd Hday HsA HeA HsB HeB HA HB Hshift.
    apply checkConflict_spec. split; [assumption |].
    rewrite HsA, HeA, HsB, HeB. apply timesOverlap_Num. lia.
Qed.

Lemma timesOverlap_half_open_witness :
  (timesOverlap (Num 540) (Num 600) (Num 600) (Num 660) = true
   <-> Z.max 540 600 < Z.min 600 660)
  /\ checkConflict (monday_course "A" "09:00" "10:00")
                   (monday_course "B" "10:00" "11:00") = false
  /\ checkConflict (monday_course "A" "09:00" "10:01")
                   (monday_course "B" "10:00" "11:00") = true
  /\ checkConflict (monday_course "A" "09:00" "10:00")
                   (monday_course "B" "09:59" "11:00") = true.
Proof.
  destruct timesOverlap_half_open as [Hiff [Htouch Hshift]].
  split; [apply (Hiff 540 600 600 660) |].
  split; [apply Htouch; reflexivity |].
  split.
  - apply (Hshift _ _ 540 601 600 660); try reflexivity.
    exists "Mon". simpl. tauto.
  - apply (Hshift _ _ 540 600 599 660); try reflexivity.
    exists "Mon". simpl. tauto.
Defined.

(** C6. Two courses whose day arrays have no common element never conflict,
    whatever their start and end times are. *)
Theorem checkConflict_disjoint_days (courseA courseB : Course.t) :
  (forall d, In d (Course.days courseA) -> ~ In d (Course.days courseB)) ->
  checkConflict courseA courseB = false.
Proof.
  intros Hdisjoint.
  destruct (checkConflict courseA courseB) eqn:Hc; [| reflexivity].
  apply checkConflict_spec in Hc. destruct Hc as [[d [HA HB]] _].
  now destruct (Hdisjoint d HA).
Qed.

Lemma checkConflict_disjoint_days_witness :
  checkConflict CSE101 tuesday_same_hours = false.
Proof.
  apply checkConflict_disjoint_days.
  intros d HA HB. simpl in HA, HB.
  repeat match goal with
         | H : _ \/ _ |- _ => destruct H
         | H : False |- _ => destruct H
         end; subst; discriminate.
Defined.

(** * Properties of the admin actions *)

Section Lookups.

Lemma find_course_Some (cid : string) (d : Data) (c : Course.t) :
  find_course cid d = Some c -> In c (courses d) /\ Course.id c = cid.
Proof.
  unfold find_course. intros H. apply find_some in H.
  destruct H as [Hin Heq]. apply String.eqb_eq in Heq. now split.
Qed.

Lemma find_course_None (cid : string) (d : Data) :
  find_course cid d = None
  <-> forall c, In c (courses d) -> Course.id c <> cid.
Proof.
  unfold find_course. split.
  - intros H c Hin Heq.
    apply (find_none _ _ H) in Hin. apply String.eqb_neq in Hin. contradiction.
  - intros H. destruct (find _ (courses d)) as [c |] eqn:Hf; [| reflexivity].
    apply find_some in Hf. destruct Hf as [Hin Heq].
    apply String.eqb_eq in Heq. now destruct (H c Hin).
Qed.

Lemma find_user_Some (uname : string) (l : list User.t) (u : User.t) :
  find_user uname l = Some u -> In u l /\ User.username u = uname.
Proof.
  unfold find_user. intros H. apply find_some in H.
  destruct H as [Hin Heq]. apply String.eqb_eq in Heq. now split.
Qed.

Lemma find_user_None (uname : string) (l : list User.t) :
  find_user uname l = None
  <-> forall u, In u l -> User.username u <> uname.
Proof.
  unfold find_user. split.
  - intros H u Hin Heq.
    apply (find_none _ _ H) in Hin. apply String.eqb_neq in Hin. contradiction.
  - intros H. destruct (find _ l) as [u |] eqn:Hf; [| reflexivity].
    apply find_some in Hf. destruct Hf as [Hin Heq].
    apply String.eqb_eq in Heq. now destruct (H u Hin).
Qed.

End Lookups.

Lemma course_exists_find (cid : string) (d : Data) :
  course_exists cid d <-> exists c, find_course cid d = Some c.
Proof.
  split.
  - intros [c [Hin Heq]].
    destruct (find_course cid d) as [c' |] eqn:Hf; [now exists c' |].
    rewrite find_course_None in Hf. now destruct (Hf c Hin).
  - intros [c Hf]. exists c. now apply find_course_Some.
Qed.

Lemma username_taken_find (uname : string) (l : list User.t) :
  username_taken uname l <-> exists u, find_user uname l = Some u.
Proof.
  split.
  - intros [u [Hin Heq]].
    destruct (find_user uname l) as [u' |] eqn:Hf; [now exists u' |].
    rewrite find_user_None in Hf. now destruct (Hf u Hin).
  - intros [u Hf]. exists u. now apply find_user_Some.
Qed.

(** C7. [addCourse c] on a store that already has a course with the
    identifier of [c] only sets the duplicate-identifier message and leaves
    the store as it was; on any other store it puts [c] at the end of the
    course list and leaves the users as they were. *)
Theorem addCourse_duplicate_or_append (course : Course.t) (st : AppState) :
  (course_exists (Course.id course) (data st) ->
   addCourse course st = setMessage DuplicateIdError st)
  /\ (~ course_exists (Course.id course) (data st) ->
      addCourse course st
      = {| data := {| users := users (data st);
                      courses := courses (data st) ++ [course] |};
           message := "Course added" |}).
Proof.
  unfold addCourse. split; intros H.
  - apply course_exists_find in H. destruct H as [c Hf]. now rewrite Hf.
  - destruct (find_course (Course.id course) (data st)) as [c |] eqn:Hf.
    + destruct H. apply course_exists_find. now exists c.
    + reflexivity.
Qed.

Lemma addCourse_duplicate_or_append_witness :
  addCourse CSE101 defaultState = setMessage DuplicateIdError defaultState
  /\ courses (data (addCourse PHY301 defaultState)) = [CSE101; MAT201; PHY301].
Proof.
  split.
  - apply (addCourse_duplicate_or_append CSE101 defaultState).
    exists CSE101. simpl. tauto.
  - destruct (addCourse_duplicate_or_append PHY301 defaultState) as [_ Happend].
    rewrite Happend; [reflexivity |].
    intros [c [Hin Heq]]. simpl in Hin.
    destruct Hin as [<- | [<- | []]]; discriminate.
Defined.

(** C8. [updateCourse c] keeps the users and the length and order of the
    course list; at every position it puts [c] where the course there has
    the identifier of [c] and keeps the course there otherwise.  When no
    course has that identifier the course list is the same as before, and
    the handler reports success, not an error. *)
Theorem updateCourse_replaces_matching (updated : Course.t) (st : AppState) :
  users (data (updateCourse updated st)) = users (data st)
  /\ List.length (courses (data (updateCourse updated st)))
     = List.length (courses (data st))
  /\ (forall i c,
         nth_error (courses (data st)) i = Some c ->
         (Course.id c = Course.id updated ->
          nth_error (courses (data (updateCourse updated st))) i = Some updated)
         /\ (Course.id c <> Course.id updated ->
             nth_error (courses (data (updateCourse updated st))) i = Some c))
  /\ (~ course_exists (Course.id updated) (data st) ->
      courses (data (updateCourse updated st)) = courses (data st))
  /\ message (updateCourse updated st) = "Course updated".
Proof.
  unfold updateCourse. simpl.
  split; [reflexivity |].
  split; [apply length_map |].
  split; [| split; [| reflexivity]].
  - intros i c Hnth. rewrite nth_error_map, Hnth. simpl. split; intros H.
    + apply String.eqb_eq in H. now rewrite H.
    + apply String.eqb_neq in H. now rewrite H.
  - intros Hnone. rewrite <- (map_id (courses (data st))) at 2.
    apply map_ext_in. intros c Hin.
    destruct (String.eqb (Course.id c) (Course.id updated)) eqn:Heq;
      [| reflexivity].
    apply String.eqb_eq in Heq. destruct Hnone. now exists c.
Qed.

Lemma updateCourse_replaces_matching_witness :
  courses (data (updateCourse PHY301 defaultState)) = [CSE101; MAT201].
Proof.
  destruct (updateCourse_replaces_matching PHY301 defaultState)
    as (_ & _ & _ & Hnoop & _).
  rewrite Hnoop; [reflexivity |].
  intros [c [Hin Heq]]. simpl in Hin.
  destruct Hin as [<- | [<- | []]]; discriminate.
Defined.

(** C3. After [deleteCourse id] no course of the store has identifier [id],
    every other course is still there, and every student has a registration
    list that does not contain [id]. *)
Theorem deleteCourse_cascades (id : string) (st : AppState) :
  (forall c, In c (courses (data (deleteCourse id st))) <->
             In c (courses (data st)) /\ Course.id c <> id)
  /\ (forall s, In s (students (users (data (deleteCourse id st)))) ->
                exists regs, User.registrations s = Some regs /\ ~ In id regs).
Proof.
  unfold deleteCourse. simpl. split.
  - intros c. rewrite filter_In, negb_true_iff, String.eqb_neq. tauto.
  - intros s Hin. apply in_map_iff in Hin. destruct Hin as [s0 [<- _]].
    simpl. eexists. split; [reflexivity |].
    destruct (User.registrations s0) as [regs |]; [| intros []].
    rewrite filter_In, negb_true_iff, String.eqb_neq. tauto.
Qed.

(** C9. [addUser type user] is rejected with the username-taken message,
    the store staying as it was, exactly when the collection of its own role
    already has that username; the other role's collection plays no part.
    When it is not rejected, an admin is appended to the admins as given and
    a student is appended to the students with an empty registration list,
    the other collection and the courses staying as they were. *)
Theorem addUser_own_namespace (type : string) (user : User.t) (st : AppState) :
  (message (addUser type user st) = DuplicateUsernameError type
   <-> username_taken (User.username user)
                      (target_collection type (users (data st))))
  /\ (username_taken (User.username user)
                     (target_collection type (users (data st))) ->
      addUser type user st = setMessage (DuplicateUsernameError type) st)
  /\ (~ username_taken (User.username user)
                       (target_collection type (users (data st))) ->
      courses (data (addUser type user st)) = courses (data st)
      /\ (type = "admin" ->
          admins (users (data (addUser type user st)))
          = (admins (users (data st)) ++ [user])%list
          /\ students (users (data (addUser type user st)))
             = students (users (data st)))
      /\ (type <> "admin" ->
          admins (users (data (addUser type user st)))
          = admins (users (data st))
          /\ exists student,
              students (users (data (addUser type user st)))
              = (students (users (data st)) ++ [student])%list
              /\ User.username student = User.username user
              /\ User.password student = User.password user
              /\ User.name student = User.name user
              /\ User.registrations student = Some [])).
Proof.
  unfold addUser, target_collection, DuplicateUsernameError.
  destruct (String.eqb type "admin") eqn:Htype.
  - apply String.eqb_eq in Htype.
    destruct (find_user (User.username user) (admins (users (data st))))
      as [a |] eqn:Hf.
    + assert (Htaken : username_taken (User.username user)
                                      (admins (users (data st))))
        by (apply username_taken_find; now exists a).
      split; [simpl; tauto |]. split; [reflexivity |]. tauto.
    + assert (Hfree : ~ username_taken (User.username user)
                                       (admins (users (data st)))).
      { intros Ht. apply username_taken_find in Ht.
        destruct Ht as [a Ha]. congruence. }
      split; [simpl; split; [discriminate | tauto] |].
      split; [tauto |]. intros _. simpl.
      split; [reflexivity |]. split; [tauto | congruence].
  - apply String.eqb_neq in Htype.
    destruct (find_user (User.username user) (students (users (data st))))
      as [s |] eqn:Hf.
    + assert (Htaken : username_taken (User.username user)
                                      (students (users (data st))))
        by (apply username_taken_find; now exists s).
      split; [simpl; tauto |]. split; [reflexivity |]. tauto.
    + assert (Hfree : ~ username_taken (User.username user)
                                       (students (users (data st)))).
      { intros Ht. apply username_taken_find in Ht.
        destruct Ht as [s Hs]. congruence. }
      split; [simpl; split; [discriminate | tauto] |].
      split; [tauto |]. intros _. simpl.
      split; [reflexivity |]. split; [tauto |]. intros _.
      split; [reflexivity |].
      exists (User.with_registrations user []). simpl. tauto.
Qed.

Lemma addUser_own_namespace_witness :
  addUser "student" student1_namesake defaultState
  = setMessage DuplicateStudentUsernameError defaultState
  /\ admins (users (data (addUser "admin" student1_namesake defaultState)))
     = (admins (users defaultData) ++ [student1_namesake])%list.
Proof.
  split.
  - apply (addUser_own_namespace "student" student1_namesake defaultState).
    exists (User.mk "student1" "student1" "Student One" (Some [])).
    simpl. tauto.
  - destruct (addUser_own_namespace "admin" student1_namesake defaultState)
      as (_ & _ & Hadd).
    destruct Hadd as (_ & Hadmin & _).
    + intros [u [Hin Heq]]. simpl in Hin.
      destruct Hin as [<- | [<- | []]]; discriminate.
    + now destruct Hadmin.
Defined.

Example addUser_student_starts_empty :
  students (users (data (addUser "student"
                           (User.mk "student3" "pw" "Student Three" (Some ["CSE101"]))
                           defaultState)))
  = (students (users defaultData)
     ++ [User.mk "student3" "pw" "Student Three" (Some [])])%list.
Proof. reflexivity. Qed.

(** * Properties of the student actions *)

Section SeatCount.

Lemma registered_In (cid : string) (s : User.t) :
  registered cid s = true <-> In cid (or_empty (User.registrations s)).
Proof.
  unfold registered, optional_includes, or_empty.
  destruct (User.registrations s) as [regs |].
  - apply includes_In.
  - simpl. split; [discriminate | tauto].
Qed.

Lemma reduce_count (cid : string) (l : list User.t) (acc : Z) :
  fold_left
    (fun acc s =>
       acc + (if optional_includes (User.registrations s) cid then 1 else 0))
    l acc
  = acc + Z.of_nat (List.length (filter (registered cid) l)).
Proof.
  revert acc. induction l as [| s l IH]; intros acc; simpl.
  - lia.
  - rewrite IH. unfold registered at 2.
    destruct (optional_includes (User.registrations s) cid);
      cbn [List.length]; lia.
Qed.

(** The [reduce] of the handler computes the seat usage. *)
Lemma registrationsCount_usage (cid : string) (d : Data) :
  registrationsCount cid d = Z.of_nat (seat_usage cid d).
Proof. unfold registrationsCount, seat_usage. now rewrite reduce_count. Qed.

End SeatCount.

Section RegisterCourse.

Variables (studentUsername courseId : string) (st : AppState).

Lemma registerCourse_not_found :
  find_course courseId (data st) = None ->
  registerCourse studentUsername courseId st
  = Returns (setMessage CourseNotFoundError st).
Proof. intros H. unfold registerCourse. now rewrite H. Qed.

Lemma registerCourse_full (course : Course.t) :
  find_course courseId (data st) = Some course ->
  seats_or_default course <= registrationsCount courseId (data st) ->
  registerCourse studentUsername courseId st
  = Returns (setMessage SeatsFullError st).
Proof.
  intros Hc Hfull. unfold registerCourse. rewrite Hc.
  apply Z.leb_le in Hfull. now rewrite Hfull.
Qed.

Lemma registerCourse_no_student (course : Course.t) :
  find_course courseId (data st) = Some course ->
  registrationsCount courseId (data st) < seats_or_default course ->
  find_user studentUsername (students (users (data st))) = None ->
  registerCourse studentUsername courseId st = ThrowsTypeError.
Proof.
  intros Hc Hfree Hs. unfold registerCourse. rewrite Hc.
  apply Z.leb_gt in Hfree. now rewrite Hfree, Hs.
Qed.

(** With a course found, seats free and the student found, the outcome is
    decided by the conflict test over the student's registered courses. *)
Lemma registerCourse_student (course : Course.t) (student : User.t) :
  find_course courseId (data st) = Some course ->
  registrationsCount courseId (data st) < seats_or_default course ->
  find_user studentUsername (students (users (data st))) = Some student ->
  registerCourse studentUsername courseId st
  = if existsb (fun rc => checkConflict rc course)
         (filter (fun c => includes (or_empty (User.registrations student))
                                    (Course.id c))
                 (courses (data st)))
    then Returns (setMessage ConflictError st)
    else Returns
           (setMessage "Registered successfully"
              (setData
                 {| users :=
                      {| admins := admins (users (data st));
                         students :=
                           map (fun s =>
                                  if String.eqb (User.username s) studentUsername
                                  then User.with_registrations s
                                         (or_empty (User.registrations s)
                                          ++ [courseId])
                                  else s)
                               (students (users (data st))) |};
                    courses := courses (data st) |} st)).
Proof.
  intros Hc Hfree Hs. unfold registerCourse. rewrite Hc.
  apply Z.leb_gt in Hfree. now rewrite Hfree, Hs.
Qed.

(** Whenever the handler leaves the no-seats message the store is the one
    it started from. *)
Lemma registerCourse_full_keeps_data (st' : AppState) :
  registerCourse studentUsername courseId st = Returns st' ->
  message st' = SeatsFullError ->
  data st' = data st.
Proof.
  unfold registerCourse, SeatsFullError.
  destruct (find_course courseId (data st)) as [course |].
  - destruct (seats_or_default course <=? registrationsCount courseId (data st)).
    + intros [= <-] _. reflexivity.
    + destruct (find_user studentUsername (students (users (data st))))
        as [student |]; [| discriminate].
      destruct (existsb _ _); intros [= <-]; simpl; discriminate.
  - intros [= <-]. simpl. discriminate.
Qed.

Lemma registerCourse_fails_full_iff (course : Course.t) :
  find_course courseId (data st) = Some course ->
  fails_with SeatsFullError (registerCourse studentUsername courseId st)
  <-> seats_or_default course <= registrationsCount courseId (data st).
Proof.
  intros Hc. split.
  - intros [st' [Hr Hm]]. revert Hr Hm.
    unfold registerCourse, SeatsFullError. rewrite Hc.
    destruct (seats_or_default course <=? registrationsCount courseId (data st))
      eqn:Hle; [intros _ _; now apply Z.leb_le |].
    destruct (find_user studentUsername (students (users (data st))))
      as [student |]; [| discriminate].
    destruct (existsb _ _); intros [= <-]; simpl; discriminate.
  - intros Hfull. exists (setMessage SeatsFullError st).
    split; [now apply registerCourse_full with course | reflexivity].
Qed.

End RegisterCourse.

(** C1 (amended). For a store in which the identifier of [course] resolves to
    [course], and [course] has a non-zero seat cap or no [seats] at all:
    [registerCourse] is rejected with the no-seats message exactly when the
    number of students whose registration list contains the identifier is at
    least the cap, a course without [seats] being capped at 9999; and on that
    rejection the store, hence every registration list, is unchanged. *)
Theorem registerCourse_seats_full
        (studentUsername : string) (course : Course.t) (st : AppState) :
  find_course (Course.id course) (data st) = Some course ->
  Course.seats course <> Some 0 ->
  (fails_with SeatsFullError
              (registerCourse studentUsername (Course.id course) st)
   <-> seat_cap course <= Z.of_nat (seat_usage (Course.id course) (data st)))
  /\ (forall st',
         registerCourse studentUsername (Course.id course) st = Returns st' ->
         message st' = SeatsFullError ->
         data st' = data st).
Proof.
  intros Hc Hseats. split.
  - rewrite (registerCourse_fails_full_iff _ _ _ course Hc).
    rewrite registrationsCount_usage.
    unfold seats_or_default, seat_cap.
    destruct (Course.seats course) as [n |]; [| reflexivity].
    destruct (n =? 0) eqn:Hz; [| reflexivity].
    apply Z.eqb_eq in Hz. subst n. now destruct Hseats.
  - intros st'. apply registerCourse_full_keeps_data.
Qed.

Lemma registerCourse_seats_full_witness :
  fails_with SeatsFullError (registerCourse "student2" "LAB001" labState).
Proof.
  destruct (registerCourse_seats_full "student2" LAB001 labState) as [Hiff _].
  - reflexivity.
  - discriminate.
  - apply Hiff. vm_compute. discriminate.
Defined.

(** Counterexample to C1 as stated: a course without a seat cap is not
    unlimited.  With 9999 students registered, the next registration is
    rejected with the no-seats message. *)
Lemma registerCourse_seats_full_counterexample :
  find_course (Course.id OPEN100) (data crowdedState) = Some OPEN100
  /\ Course.seats OPEN100 = None
  /\ registerCourse "late" (Course.id OPEN100) crowdedState
     = Returns (setMessage SeatsFullError crowdedState)
  /\ ~ (fails_with SeatsFullError
                   (registerCourse "late" (Course.id OPEN100) crowdedState)
        <-> seats_reached_unlimited
              OPEN100 (seat_usage (Course.id OPEN100) (data crowdedState))).
Proof.
  assert (Hfull : registerCourse "late" (Course.id OPEN100) crowdedState
                  = Returns (setMessage SeatsFullError crowdedState))
    by (vm_compute; reflexivity).
  split; [reflexivity |]. split; [reflexivity |]. split; [exact Hfull |].
  intros [Hfails _].
  apply Hfails. exists (setMessage SeatsFullError crowdedState).
  split; [exact Hfull | reflexivity].
Qed.

(** A seat count of zero is falsy, so the fallback cap applies to it too. *)
Example registerCourse_zero_seats :
  let course := {| Course.id := "NONE000"; Course.name := ""; Course.code := "";
                   Course.description := ""; Course.days := ["Mon"];
                   Course.start := "09:00"; Course.end_ := "10:00";
                   Course.dateRange := ""; Course.seats := Some 0 |} in
  let st := {| data := {| users := users defaultData; courses := [course] |};
               message := "" |} in
  exists st',
    registerCourse "student1" "NONE000" st = Returns st'
    /\ message st' = "Registered successfully"
    /\ find_user "student1" (students (users (data st')))
       = Some (User.mk "student1" "student1" "Student One" (Some ["NONE000"])).
Proof. eexists. split; [vm_compute; reflexivity | split; reflexivity]. Qed.

(** ** Registering for a course a second time *)

(** A course with a weekday and a start before its end conflicts with
    itself, so a second registration for it is turned down by the conflict
    test. *)
Lemma registerCourse_again_conflict
      (studentUsername : string) (course : Course.t) (student : User.t)
      (st : AppState) (startMin endMin : Z) :
  find_course (Course.id course) (data st) = Some course ->
  registrationsCount (Course.id course) (data st) < seats_or_default course ->
  find_user studentUsername (students (users (data st))) = Some student ->
  In (Course.id course) (or_empty (User.registrations student)) ->
  Course.days course <> [] ->
  timeToMinutes (Course.start course) = Num startMin ->
  timeToMinutes (Course.end_ course) = Num endMin ->
  startMin < endMin ->
  registerCourse studentUsername (Course.id course) st
  = Returns (setMessage ConflictError st).
Proof.
  intros Hc Hfree Hs Hreg Hdays Hstart Hend Hlt.
  rewrite (registerCourse_student _ _ _ course student Hc Hfree Hs).
  replace (existsb _ _) with true; [reflexivity |].
  symmetry. apply existsb_exists. exists course. split.
  - apply filter_In. split.
    + now apply find_course_Some in Hc.
    + now apply includes_In.
  - apply checkConflict_spec. split.
    + destruct (Course.days course) as [| d ds]; [now destruct Hdays |].
      exists d. simpl. tauto.
    + rewrite Hstart, Hend. apply timesOverlap_Num. lia.
Qed.

(** C2. There is a store in which a student is registered for an existing
    course with free seats, and [registerCourse] for that student and course
    succeeds and appends the identifier to the registration list a second
    time: the handler has no test of its own for an existing registration. *)
Theorem registerCourse_no_duplicate_guard :
  exists (st : AppState) (studentUsername : string)
         (course : Course.t) (student : User.t) (st' : AppState),
    find_course (Course.id course) (data st) = Some course
    /\ registrationsCount (Course.id course) (data st) < seats_or_default course
    /\ find_user studentUsername (students (users (data st))) = Some student
    /\ In (Course.id course) (or_empty (User.registrations student))
    /\ registerCourse studentUsername (Course.id course) st = Returns st'
    /\ message st' = "Registered successfully"
    /\ find_user studentUsername (students (users (data st')))
       = Some (User.with_registrations student
                 (or_empty (User.registrations student) ++ [Course.id course]))
    /\ count_occ string_dec
         (or_empty (User.registrations student) ++ [Course.id course])
         (Course.id course) = 2%nat.
Proof.
  exists seminarState, "student1", SEM400,
         (User.mk "student1" "student1" "Student One" (Some ["SEM400"])).
  eexists.
  split; [reflexivity |]. split; [reflexivity |]. split; [reflexivity |].
  split; [simpl; tauto |].
  split; [vm_compute; reflexivity |].
  repeat split; reflexivity.
Qed.

(** C10. [registerCourse] reads [registrations] on the result of the
    student lookup without testing it.  It raises exactly on the stores where
    the course identifier resolves to a course that still has a seat and no
    student carries the given username; with such a student present the
    handler always ends normally. *)
Theorem registerCourse_requires_student
        (studentUsername courseId : string) (st : AppState) :
  registerCourse studentUsername courseId st = ThrowsTypeError
  <-> (exists course,
          find_course courseId (data st) = Some course
          /\ registrationsCount courseId (data st) < seats_or_default course)
      /\ (forall s, In s (students (users (data st))) ->
                    User.username s <> studentUsername).
Proof.
  rewrite <- find_user_None. split.
  - unfold registerCourse.
    destruct (find_course courseId (data st)) as [course |]; [| discriminate].
    destruct (seats_or_default course <=? registrationsCount courseId (data st))
      eqn:Hle; [discriminate |].
    apply Z.leb_gt in Hle.
    destruct (find_user studentUsername (students (users (data st))))
      as [student |].
    + destruct (existsb _ _); discriminate.
    + intros _. split; [now exists course | reflexivity].
  - intros [[course [Hc Hfree]] Hs].
    now apply registerCourse_no_student with course.
Qed.

Example registerCourse_unknown_student :
  registerCourse "nobody" "CSE101" defaultState = ThrowsTypeError.
Proof. reflexivity. Qed.

Example registerCourse_unknown_student_full_course :
  registerCourse "nobody" "LAB001" labState
  = Returns (setMessage SeatsFullError labState).
Proof. reflexivity. Qed.

Example scenario_register_both :
  exists st1 st2,
    registerCourse "student1" "CSE101" defaultState = Returns st1
    /\ registerCourse "student1" "MAT201" st1 = Returns st2
    /\ find_user "student1" (students (users (data st2)))
       = Some (User.mk "student1" "student1" "Student One"
                 (Some ["CSE101"; "MAT201"])).
Proof. do 2 eexists. repeat split; vm_compute; reflexivity. Qed.

Example scenario_conflict :
  exists st1 st2,
    registerCourse "student1" "CSE101" (addCourse CSE102 defaultState)
    = Returns st1
    /\ registerCourse "student1" "CSE102" st1 = Returns st2
    /\ message st2 = ConflictError
    /\ data st2 = data st1.
Proof. do 2 eexists. repeat split; vm_compute; reflexivity. Qed.

(** * Further properties of the student actions *)

Section StudentUpdates.

Variables (studentUsername cid : string).

Lemma add_registration_username (s : User.t) :
  User.username (add_registration studentUsername cid s) = User.username s.
Proof.
  unfold add_registration.
  now destruct (String.eqb (User.username s) studentUsername).
Qed.

Lemma remove_registration_username (s : User.t) :
  User.username (remove_registration studentUsername cid s) = User.username s.
Proof.
  unfold remove_registration.
  now destruct (String.eqb (User.username s) studentUsername).
Qed.

(** A lookup by username commutes with an update that keeps usernames. *)
Lemma find_user_map (f : User.t -> User.t) (uname : string) (l : list User.t) :
  (forall s, User.username (f s) = User.username s) ->
  find_user uname (map f l) = option_map f (find_user uname l).
Proof.
  intros Hf. unfold find_user. induction l as [| s l IH]; simpl.
  - reflexivity.
  - rewrite Hf. now destruct (String.eqb (User.username s) uname).
Qed.

Lemma includes_app (l1 l2 : list string) (x : string) :
  includes (l1 ++ l2) x = includes l1 x || includes l2 x.
Proof. unfold includes. apply existsb_app. Qed.

Lemma includes_last (l : list string) (x : string) :
  includes (l ++ [x]) x = true.
Proof.
  rewrite includes_app. unfold includes at 2. simpl.
  rewrite String.eqb_refl. now rewrite orb_true_r.
Qed.

Lemma filter_drop_last (l : list string) (x : string) :
  filter (fun r => negb (String.eqb r x)) (l ++ [x])
  = filter (fun r => negb (String.eqb r x)) l.
Proof.
  rewrite filter_app. simpl. rewrite String.eqb_refl. simpl.
  apply app_nil_r.
Qed.

Lemma remove_add_registration (s : User.t) :
  remove_registration studentUsername cid
    (add_registration studentUsername cid s)
  = remove_registration studentUsername cid s.
Proof.
  unfold remove_registration, add_registration.
  destruct (String.eqb (User.username s) studentUsername) eqn:Hu.
  - simpl. rewrite Hu. unfold User.with_registrations. simpl.
    now rewrite filter_drop_last.
  - now rewrite Hu.
Qed.

End StudentUpdates.

Section RegisterOutcome.

Variables (studentUsername courseId : string) (st : AppState).

(** The state [registerCourse] returns on success. *)
Lemma registerCourse_accepted_state (course : Course.t) (student : User.t) :
  find_course courseId (data st) = Some course ->
  registrationsCount courseId (data st) < seats_or_default course ->
  find_user studentUsername (students (users (data st))) = Some student ->
  existsb (fun rc => checkConflict rc course)
          (registeredCourses student (data st)) = false ->
  registerCourse studentUsername courseId st
  = Returns
      {| data :=
           {| users :=
                {| admins := admins (users (data st));
                   students := map (add_registration studentUsername courseId)
                                   (students (users (data st))) |};
              courses := courses (data st) |};
         message := "Registered successfully" |}.
Proof.
  intros Hc Hfree Hs Hno.
  rewrite (registerCourse_student _ _ _ course student Hc Hfree Hs).
  unfold registeredCourses in Hno. now rewrite Hno.
Qed.

(** A normal return either leaves the store alone, with a message other
    than the one of success, or is the accepted state. *)
Lemma registerCourse_Returns_inv (st' : AppState) :
  registerCourse studentUsername courseId st = Returns st' ->
  (data st' = data st /\ message st' <> "Registered successfully")
  \/ (exists course student,
         find_course courseId (data st) = Some course
         /\ registrationsCount courseId (data st) < seats_or_default course
         /\ find_user studentUsername (students (users (data st))) = Some student
         /\ existsb (fun rc => checkConflict rc course)
                    (registeredCourses student (data st)) = false
         /\ st' = {| data :=
                       {| users :=
                            {| admins := admins (users (data st));
                               students :=
                                 map (add_registration studentUsername courseId)
                                     (students (users (data st))) |};
                          courses := courses (data st) |};
                     message := "Registered successfully" |}).
Proof.
  destruct (find_course courseId (data st)) as [course |] eqn:Hc.
  - destruct (Z.lt_ge_cases (registrationsCount courseId (data st))
                            (seats_or_default course)) as [Hfree | Hfull].
    + destruct (find_user studentUsername (students (users (data st))))
        as [student |] eqn:Hs.
      * rewrite (registerCourse_student _ _ _ course student Hc Hfree Hs).
        fold (registeredCourses student (data st)).
        destruct (existsb _ (registeredCourses student (data st))) eqn:Hno.
        -- intros [= <-]. left. split; [reflexivity | discriminate].
        -- intros [= <-]. right. exists course, student.
           split; [reflexivity |]. split; [assumption |].
           split; [reflexivity |]. split; [assumption | reflexivity].
      * now rewrite (registerCourse_no_student _ _ _ course Hc Hfree Hs).
    + rewrite (registerCourse_full _ _ _ course Hc Hfull).
      intros [= <-]. left. split; [reflexivity | discriminate].
  - rewrite (registerCourse_not_found _ _ _ Hc).
    intros [= <-]. left. split; [reflexivity | discriminate].
Qed.

End RegisterOutcome.

Lemma unregisterCourse_data (studentUsername courseId : string) (st : AppState) :
  data (unregisterCourse studentUsername courseId st)
  = {| users :=
         {| admins := admins (users (data st));
            students := map (remove_registration studentUsername courseId)
                            (students (users (data st))) |};
       courses := courses (data st) |}.
Proof. reflexivity. Qed.

Section ListFacts.

Lemma filter_all_kept {A : Type} (p : A -> bool) (l : list A) :
  (forall x, In x l -> p x = true) -> filter p l = l.
Proof.
  induction l as [| x l IH]; simpl; intros H; [reflexivity |].
  rewrite (H x (or_introl eq_refl)). f_equal. apply IH.
  intros y Hy. apply H. now right.
Qed.

Lemma filter_map_length {A : Type} (p : A -> bool) (f : A -> A) (l : list A) :
  (forall x, In x l -> p (f x) = p x) ->
  List.length (filter p (map f l)) = List.length (filter p l).
Proof.
  induction l as [| x l IH]; simpl; intros H; [reflexivity |].
  rewrite (H x (or_introl eq_refl)).
  destruct (p x); simpl; rewrite IH; auto.
Qed.

Lemma NoDup_map_eq {A B : Type} (f : A -> B) (l : list A) (a b : A) :
  NoDup (map f l) -> In a l -> In b l -> f a = f b -> a = b.
Proof.
  induction l as [| x l IH]; simpl; intros Hnd Ha Hb Heq; [contradiction |].
  inversion Hnd as [| y ys Hnotin Hnd']; subst.
  destruct Ha as [-> | Ha], Hb as [-> | Hb].
  - reflexivity.
  - destruct Hnotin. rewrite Heq. now apply in_map.
  - destruct Hnotin. rewrite <- Heq. now apply in_map.
  - now apply IH.
Qed.

End ListFacts.

Lemma with_registrations_same (s : User.t) (regs : list string) :
  User.registrations s = Some regs -> User.with_registrations s regs = s.
Proof. destruct s. simpl. now intros ->. Qed.

Lemma data_eta (d : Data) :
  {| users := {| admins := admins (users d); students := students (users d) |};
     courses := courses d |} = d.
Proof. now destruct d as [[] ?]. Qed.

(** X1. [unregisterCourse u cid] keeps the courses, the admins and every
    student whose username is not [u]; a student named [u] keeps username,
    password and name, and the new registration list is the old one (the
    empty list when there was none) without the entries equal to [cid], the
    others in their order. *)
Theorem unregisterCourse_removes (studentUsername courseId : string) (st : AppState) :
  courses (data (unregisterCourse studentUsername courseId st)) = courses (data st)
  /\ admins (users (data (unregisterCourse studentUsername courseId st)))
     = admins (users (data st))
  /\ (forall i s,
         nth_error (students (users (data st))) i = Some s ->
         (User.username s <> studentUsername ->
          nth_error (students (users (data (unregisterCourse studentUsername courseId st)))) i
          = Some s)
         /\ (User.username s = studentUsername ->
             nth_error (students (users (data (unregisterCourse studentUsername courseId st)))) i
             = Some {| User.username := User.username s;
                       User.password := User.password s;
                       User.name := User.name s;
                       User.registrations :=
                         Some (filter (fun r => negb (String.eqb r courseId))
                                      (or_empty (User.registrations s))) |}))
  /\ (forall s',
         In s' (students (users (data (unregisterCourse studentUsername courseId st)))) ->
         User.username s' = studentUsername ->
         ~ In courseId (or_empty (User.registrations s'))).
Proof.
  rewrite unregisterCourse_data. simpl.
  split; [reflexivity |]. split; [reflexivity |]. split.
  - intros i s Hnth. rewrite nth_error_map, Hnth. simpl.
    unfold remove_registration. split; intros Hu.
    + apply String.eqb_neq in Hu. now rewrite Hu.
    + apply String.eqb_eq in Hu. now rewrite Hu.
  - intros s' Hin Hu. apply in_map_iff in Hin. destruct Hin as [s [<- _]].
    rewrite remove_registration_username in Hu.
    unfold remove_registration. apply String.eqb_eq in Hu. rewrite Hu. simpl.
    rewrite filter_In, negb_true_iff, String.eqb_neq. tauto.
Qed.

(** X2. [unregisterCourse u cid] leaves the store as it was when every
    student named [u] has a registration list that does not contain [cid];
    this is so in particular when no student is named [u].  The handler
    reports "Unregistered" in every case. *)
Theorem unregisterCourse_absent_noop
        (studentUsername courseId : string) (st : AppState) :
  (forall s, In s (students (users (data st))) ->
             User.username s = studentUsername ->
             exists regs, User.registrations s = Some regs /\ ~ In courseId regs) ->
  unregisterCourse studentUsername courseId st = setMessage "Unregistered" st.
Proof.
  intros Habsent.
  assert (Hdata : data (unregisterCourse studentUsername courseId st) = data st).
  { rewrite unregisterCourse_data.
    rewrite <- (data_eta (data st)) at 4. do 2 f_equal.
    rewrite <- (map_id (students (users (data st)))) at 2.
    apply map_ext_in. intros s Hin. unfold remove_registration.
    destruct (String.eqb (User.username s) studentUsername) eqn:Hu;
      [| reflexivity].
    apply String.eqb_eq in Hu.
    destruct (Habsent s Hin Hu) as [regs [Hregs Hnot]].
    rewrite Hregs. simpl. rewrite filter_all_kept.
    - now apply with_registrations_same.
    - intros r Hr. apply negb_true_iff, String.eqb_neq. now intros ->. }
  unfold setMessage. rewrite <- Hdata. reflexivity.
Qed.

Lemma unregisterCourse_absent_noop_witness :
  unregisterCourse "nobody" "CSE101" defaultState
  = setMessage "Unregistered" defaultState
  /\ unregisterCourse "student1" "CSE101" defaultState
     = setMessage "Unregistered" defaultState.
Proof.
  split; apply unregisterCourse_absent_noop; intros s Hin Hu; simpl in Hin;
    destruct Hin as [<- | [<- | []]]; try discriminate;
    exists []; simpl; tauto.
Defined.

(** X3. Unregistering right after a registration attempt gives the same
    store as unregistering without the attempt, whether the attempt was
    accepted or rejected. *)
Theorem registerCourse_then_unregisterCourse
        (studentUsername courseId : string) (st st' : AppState) :
  registerCourse studentUsername courseId st = Returns st' ->
  data (unregisterCourse studentUsername courseId st')
  = data (unregisterCourse studentUsername courseId st).
Proof.
  intros Hr. rewrite !unregisterCourse_data.
  destruct (registerCourse_Returns_inv _ _ _ _ Hr)
    as [[Hdata _] | (course & student & _ & _ & _ & _ & ->)].
  - now rewrite Hdata.
  - simpl. rewrite map_map. do 2 f_equal.
    apply map_ext. intros s. apply remove_add_registration.
Qed.

Lemma registerCourse_then_unregisterCourse_witness :
  data (unregisterCourse "student1" "CSE101"
          {| data :=
               {| users :=
                    {| admins := admins (users defaultData);
                       students :=
                         map (add_registration "student1" "CSE101")
                             (students (users defaultData)) |};
                  courses := courses defaultData |};
             message := "Registered successfully" |})
  = data (unregisterCourse "student1" "CSE101" defaultState).
Proof.
  apply registerCourse_then_unregisterCourse. reflexivity.
Defined.

Section RegistrationEffects.

Variables (studentUsername courseId : string).

Lemma registered_add_other (cid' : string) (s : User.t) :
  cid' <> courseId ->
  registered cid' (add_registration studentUsername courseId s)
  = registered cid' s.
Proof.
  intros Hne. unfold add_registration, registered.
  destruct (String.eqb (User.username s) studentUsername); [| reflexivity].
  simpl. rewrite includes_app. unfold includes at 2. simpl.
  apply String.eqb_neq in Hne. rewrite Hne. simpl. rewrite orb_false_r.
  now destruct (User.registrations s).
Qed.

Lemma registered_add_same (s : User.t) :
  registered courseId (add_registration studentUsername courseId s)
  = String.eqb (User.username s) studentUsername || registered courseId s.
Proof.
  unfold add_registration, registered.
  destruct (String.eqb (User.username s) studentUsername); [| reflexivity].
  simpl. apply includes_last.
Qed.

(** With usernames all different, one registration raises the number of
    registered students by one at most. *)
Lemma usage_after_add (l : list User.t) :
  NoDup (map User.username l) ->
  (List.length (filter (registered courseId)
                       (map (add_registration studentUsername courseId) l))
   <= S (List.length (filter (registered courseId) l)))%nat.
Proof.
  induction l as [| s l IH]; simpl; intros Hnd; [lia |].
  inversion Hnd as [| u us Hnotin Hnd']; subst.
  rewrite registered_add_same.
  destruct (String.eqb (User.username s) studentUsername) eqn:Hu.
  - apply String.eqb_eq in Hu. simpl.
    assert (Hsame : map (add_registration studentUsername courseId) l = l).
    { rewrite <- (map_id l) at 2. apply map_ext_in. intros s' Hin.
      unfold add_registration.
      destruct (String.eqb (User.username s') studentUsername) eqn:Hu';
        [| reflexivity].
      apply String.eqb_eq in Hu'. destruct Hnotin.
      rewrite Hu, <- Hu'. now apply in_map. }
    rewrite Hsame. destruct (registered courseId s); simpl; lia.
  - simpl. specialize (IH Hnd').
    destruct (registered courseId s); simpl; lia.
Qed.

End RegistrationEffects.

(** X4. A registration attempt for [cid] does not change the number of
    students registered for any other course. *)
Theorem registerCourse_other_usage
        (studentUsername courseId cid' : string) (st st' : AppState) :
  registerCourse studentUsername courseId st = Returns st' ->
  cid' <> courseId ->
  seat_usage cid' (data st') = seat_usage cid' (data st).
Proof.
  intros Hr Hne.
  destruct (registerCourse_Returns_inv _ _ _ _ Hr)
    as [[Hdata _] | (course & student & _ & _ & _ & _ & ->)].
  - now rewrite Hdata.
  - unfold seat_usage. simpl. apply filter_map_length.
    intros s _. now apply registered_add_other.
Qed.

Lemma registerCourse_other_usage_witness :
  seat_usage "MAT201"
    {| users :=
         {| admins := admins (users defaultData);
            students := map (add_registration "student1" "CSE101")
                            (students (users defaultData)) |};
       courses := courses defaultData |}
  = seat_usage "MAT201" defaultData.
Proof.
  apply (registerCourse_other_usage "student1" "CSE101" "MAT201" defaultState
           {| data := _; message := "Registered successfully" |});
    [reflexivity | discriminate].
Defined.

(** X5. In a store whose students have different usernames, an accepted
    registration for a course leaves the number of students registered for
    it within the cap the handler tests, [course.seats || 9999]. *)
Theorem registerCourse_within_cap
        (studentUsername courseId : string) (course : Course.t)
        (st st' : AppState) :
  NoDup (map User.username (students (users (data st)))) ->
  find_course courseId (data st) = Some course ->
  registerCourse studentUsername courseId st = Returns st' ->
  message st' = "Registered successfully" ->
  Z.of_nat (seat_usage courseId (data st')) <= seats_or_default course.
Proof.
  intros Hnd Hc Hr Hmsg.
  destruct (registerCourse_Returns_inv _ _ _ _ Hr)
    as [[_ Hno] | (course' & student & Hc' & Hfree & _ & _ & ->)];
    [contradiction |].
  rewrite Hc in Hc'. injection Hc' as <-.
  rewrite registrationsCount_usage in Hfree.
  unfold seat_usage in *. simpl.
  pose proof (usage_after_add studentUsername courseId _ Hnd). lia.
Qed.

Lemma registerCourse_within_cap_witness :
  Z.of_nat (seat_usage "CSE101"
              {| users :=
                   {| admins := admins (users defaultData);
                      students := map (add_registration "student1" "CSE101")
                                      (students (users defaultData)) |};
                 courses := courses defaultData |})
  <= seats_or_default CSE101.
Proof.
  apply (registerCourse_within_cap "student1" "CSE101" CSE101 defaultState
           {| data := _; message := "Registered successfully" |}).
  - simpl. repeat constructor; simpl; intuition discriminate.
  - reflexivity.
  - reflexivity.
  - reflexivity.
Defined.

Lemma checkConflict_false_sym (courseA courseB : Course.t) :
  checkConflict courseA courseB = false -> checkConflict courseB courseA = false.
Proof.
  intros H. destruct (checkConflict courseB courseA) eqn:Hba; [| reflexivity].
  apply checkConflict_spec in Hba. destruct Hba as [[d [HB HA]] Hov].
  rewrite timesOverlap_sym in Hov.
  assert (Hab : checkConflict courseA courseB = true)
    by (apply checkConflict_spec; split; [now exists d | assumption]).
  congruence.
Qed.

Lemma registeredCourses_In (me : User.t) (d : Data) (c : Course.t) :
  In c (registeredCourses me d)
  <-> In c (courses d) /\ In (Course.id c) (or_empty (User.registrations me)).
Proof. unfold registeredCourses. now rewrite filter_In, includes_In. Qed.



(** X7. [registerCourse] never changes the courses or the admins, and it
    changes the students only when it reports success: then every student
    named [studentUsername] gets [courseId] at the end of the registration
    list (an absent list counting as empty) and every other student stays
    as before. *)
Theorem registerCourse_frame
        (studentUsername courseId : string) (st st' : AppState) :
  registerCourse studentUsername courseId st = Returns st' ->
  courses (data st') = courses (data st)
  /\ admins (users (data st')) = admins (users (data st))
  /\ (message st' <> "Registered successfully" -> data st' = data st)
  /\ (message st' = "Registered successfully" ->
      forall i s,
        nth_error (students (users (data st))) i = Some s ->
        (User.username s <> studentUsername ->
         nth_error (students (users (data st'))) i = Some s)
        /\ (User.username s = studentUsername ->
            nth_error (students (users (data st'))) i
            = Some {| User.username := User.username s;
                      User.password := User.password s;
                      User.name := User.name s;
                      User.registrations :=
                        Some (or_empty (User.registrations s) ++ [courseId])%list |})).
Proof.
  intros Hr.
  destruct (registerCourse_Returns_inv _ _ _ _ Hr)
    as [[Hdata Hmsg] | (course & student & _ & _ & _ & _ & ->)].
  - rewrite Hdata. split; [reflexivity |]. split; [reflexivity |].
    split; [reflexivity | contradiction].
  - simpl. split; [reflexivity |]. split; [reflexivity |].
    split; [intros Hne; now destruct Hne |].
    intros _ i s Hnth. rewrite nth_error_map, Hnth. simpl.
    unfold add_registration. split; intros Hu.
    + apply String.eqb_neq in Hu. now rewrite Hu.
    + apply String.eqb_eq in Hu. now rewrite Hu.
Qed.

Lemma registerCourse_frame_witness :
  courses (data (setMessage SeatsFullError labState)) = courses (data labState).
Proof.
  apply (registerCourse_frame "student2" "LAB001" labState
           (setMessage SeatsFullError labState)).
  reflexivity.
Defined.

(** X8. [registerCourse] reports success exactly when the identifier
    resolves to a course, fewer students are registered for it than
    [course.seats || 9999], a student with the username exists, and no course
    of the store whose identifier is in the first such student's registration
    list conflicts with the course found. *)
Theorem registerCourse_accepts_iff
        (studentUsername courseId : string) (st : AppState) :
  (exists st', registerCourse studentUsername courseId st = Returns st'
               /\ message st' = "Registered successfully")
  <-> exists course student,
      find_course courseId (data st) = Some course
      /\ Z.of_nat (seat_usage courseId (data st)) < seats_or_default course
      /\ find_user studentUsername (students (users (data st))) = Some student
      /\ (forall rc,
             In rc (courses (data st)) ->
             In (Course.id rc) (or_empty (User.registrations student)) ->
             checkConflict rc course = false).
Proof.
  split.
  - intros [st' [Hr Hmsg]].
    destruct (registerCourse_Returns_inv _ _ _ _ Hr)
      as [[_ Hno] | (course & student & Hc & Hfree & Hs & Hno & _)];
      [contradiction |].
    exists course, student. rewrite <- registrationsCount_usage.
    repeat (split; [assumption |]).
    intros rc Hin Hreg.
    destruct (checkConflict rc course) eqn:Hcc; [| reflexivity].
    assert (Hex : existsb (fun rc => checkConflict rc course)
                          (registeredCourses student (data st)) = true).
    { apply existsb_exists. exists rc. split; [| assumption].
      now apply registeredCourses_In. }
    congruence.
  - intros (course & student & Hc & Hfree & Hs & Hno).
    rewrite <- registrationsCount_usage in Hfree.
    eexists. split.
    + apply (registerCourse_accepted_state _ _ _ course student Hc Hfree Hs).
      destruct (existsb _ (registeredCourses student (data st))) eqn:Hex;
        [| reflexivity].
      apply existsb_exists in Hex. destruct Hex as [rc [Hin Hcc]].
      apply registeredCourses_In in Hin. destruct Hin as [Hin Hreg].
      rewrite (Hno rc Hin Hreg) in Hcc. discriminate.
    + reflexivity.
Qed.

(** * Conditions every handler keeps *)

Section Uniqueness.

Lemma NoDup_snoc {A : Type} (l : list A) (x : A) :
  NoDup l -> ~ In x l -> NoDup (l ++ [x]).
Proof.
  induction l as [| y l IH]; simpl; intros Hnd Hnot.
  - constructor; [intros [] | constructor].
  - inversion Hnd as [| z zs Hy Hnd']; subst. constructor.
    + rewrite in_app_iff. simpl. intuition congruence.
    + apply IH; tauto.
Qed.

Lemma filter_keeps_unique_keys {K V : Type} (key : V -> K) (keep : V -> bool)
      (xs : list V) (Hunique : NoDup (map key xs)) :
  NoDup (map key (filter keep xs)).
Proof.
  induction xs as [| v xs IH]; simpl in *; [constructor |].
  inversion Hunique as [| k ks Hfresh Hrest]; subst.
  destruct (keep v); simpl; [| now apply IH].
  constructor; [| now apply IH].
  intros Hin. apply Hfresh. apply in_map_iff in Hin.
  destruct Hin as [w [Hw Hin]]. apply filter_In in Hin.
  apply in_map_iff. exists w. tauto.
Qed.

Lemma updateCourse_ids (updated : Course.t) (l : list Course.t) :
  map Course.id
      (map (fun c => if String.eqb (Course.id c) (Course.id updated)
                     then updated else c) l)
  = map Course.id l.
Proof.
  rewrite map_map. apply map_ext. intros c.
  destruct (String.eqb (Course.id c) (Course.id updated)) eqn:Heq;
    [| reflexivity].
  apply String.eqb_eq in Heq. now symmetry.
Qed.

Lemma map_username_map (f : User.t -> User.t) (l : list User.t) :
  (forall s, User.username (f s) = User.username s) ->
  map User.username (map f l) = map User.username l.
Proof. intros Hf. rewrite map_map. now apply map_ext. Qed.

Lemma username_taken_In (uname : string) (l : list User.t) :
  username_taken uname l <-> In uname (map User.username l).
Proof.
  unfold username_taken. rewrite in_map_iff.
  split; intros [u Hu]; exists u; tauto.
Qed.

Lemma course_exists_In (cid : string) (d : Data) :
  course_exists cid d <-> In cid (map Course.id (courses d)).
Proof.
  unfold course_exists. rewrite in_map_iff.
  split; intros [c Hc]; exists c; tauto.
Qed.

End Uniqueness.

(** X9. Every handler keeps course identifiers unique: if no two courses
    share an identifier before a call of [addCourse], [updateCourse],
    [deleteCourse], [addUser], [registerCourse] or [unregisterCourse], none
    do after it. *)
Theorem perform_keeps_unique_course_ids (a : action) (st st' : AppState) :
  unique_course_ids (data st) ->
  perform a st = Returns st' ->
  unique_course_ids (data st').
Proof.
  unfold unique_course_ids. intros Hnd Hp.
  destruct a as [course | updated | id | type user | u cid | u cid]; simpl in Hp.
  - injection Hp as <-. unfold addCourse.
    destruct (find_course (Course.id course) (data st)) eqn:Hf; [assumption |].
    simpl. rewrite map_app. simpl. apply NoDup_snoc; [assumption |].
    rewrite <- course_exists_In. intros [c [Hin Heq]].
    rewrite find_course_None in Hf. now apply (Hf c Hin).
  - injection Hp as <-. simpl. now rewrite updateCourse_ids.
  - injection Hp as <-. simpl. now apply filter_keeps_unique_keys.
  - injection Hp as <-. unfold addUser.
    destruct (String.eqb type "admin");
      destruct (find_user _ _); assumption.
  - destruct (registerCourse_Returns_inv _ _ _ _ Hp)
      as [[Hdata _] | (course & student & _ & _ & _ & _ & ->)];
      [now rewrite Hdata | assumption].
  - injection Hp as <-. assumption.
Qed.

Lemma perform_keeps_unique_course_ids_witness :
  unique_course_ids (data (addCourse PHY301 defaultState)).
Proof.
  apply (perform_keeps_unique_course_ids (AddCourse PHY301) defaultState).
  - unfold unique_course_ids. simpl.
    repeat constructor; simpl; intuition discriminate.
  - reflexivity.
Defined.

(** X10. Every handler keeps usernames unique within each role: if no two
    admins and no two students share a username before a call, none do after
    it. *)
Theorem perform_keeps_unique_usernames (a : action) (st st' : AppState) :
  unique_usernames (data st) ->
  perform a st = Returns st' ->
  unique_usernames (data st').
Proof.
  unfold unique_usernames. intros [Hadm Hstu] Hp.
  destruct a as [course | updated | id | type user | u cid | u cid]; simpl in Hp.
  - injection Hp as <-. unfold addCourse.
    destruct (find_course _ _); simpl; now split.
  - injection Hp as <-. simpl. now split.
  - injection Hp as <-. simpl. split; [assumption |].
    rewrite map_username_map; [assumption | reflexivity].
  - injection Hp as <-. unfold addUser.
    destruct (String.eqb type "admin").
    + destruct (find_user _ (admins _)) eqn:Hf; simpl; [now split |].
      split; [| assumption]. rewrite map_app. simpl.
      apply NoDup_snoc; [assumption |].
      rewrite <- username_taken_In. intros [x [Hin Heq]].
      rewrite find_user_None in Hf. now apply (Hf x Hin).
    + destruct (find_user _ (students _)) eqn:Hf; simpl; [now split |].
      split; [assumption |]. rewrite map_app. simpl.
      apply NoDup_snoc; [assumption |].
      rewrite <- username_taken_In. intros [x [Hin Heq]].
      rewrite find_user_None in Hf. now apply (Hf x Hin).
  - destruct (registerCourse_Returns_inv _ _ _ _ Hp)
      as [[Hdata _] | (course & student & _ & _ & _ & _ & ->)].
    + rewrite Hdata. now split.
    + simpl. split; [assumption |].
      rewrite map_username_map; [assumption |].
      apply add_registration_username.
  - injection Hp as <-. simpl. split; [assumption |].
    rewrite map_username_map; [assumption |].
    intros s. apply (remove_registration_username u cid).
Qed.

Lemma perform_keeps_unique_usernames_witness :
  unique_usernames (data (addUser "admin" student1_namesake defaultState)).
Proof.
  apply (perform_keeps_unique_usernames
           (AddUser "admin" student1_namesake) defaultState).
  - unfold unique_usernames. simpl.
    split; repeat constructor; simpl; intuition discriminate.
  - reflexivity.
Defined.

(** X11. Every handler keeps registrations pointing at courses: if each
    identifier in each student's registration list is the identifier of a
    course of the store before a call, the same holds after it. *)
Theorem perform_keeps_registrations_name_courses
        (a : action) (st st' : AppState) :
  registrations_name_courses (data st) ->
  perform a st = Returns st' ->
  registrations_name_courses (data st').
Proof.
  unfold registrations_name_courses. intros Hinv Hp.
  destruct a as [course | updated | id | type user | u cid | u cid]; simpl in Hp.
  - injection Hp as <-. unfold addCourse.
    destruct (find_course _ _); simpl; [exact Hinv |].
    intros s r Hs Hr. destruct (Hinv s r Hs Hr) as [c [Hin Heq]].
    exists c. simpl. rewrite in_app_iff. tauto.
  - injection Hp as <-. simpl. intros s r Hs Hr.
    apply course_exists_In. simpl. rewrite updateCourse_ids.
    apply course_exists_In. now apply (Hinv s r).
  - injection Hp as <-. simpl. intros s' r Hs' Hr.
    apply in_map_iff in Hs'. destruct Hs' as [s [<- Hs]]. simpl in Hr.
    assert (Hr' : In r (or_empty (User.registrations s)) /\ r <> id).
    { destruct (User.registrations s) as [regs |]; [| destruct Hr].
      apply filter_In in Hr. rewrite negb_true_iff, String.eqb_neq in Hr.
      exact Hr. }
    destruct Hr' as [Hr' Hne].
    destruct (Hinv s r Hs Hr') as [c [Hin Heq]].
    exists c. simpl. split; [| assumption].
    apply filter_In. split; [assumption |].
    apply negb_true_iff, String.eqb_neq. congruence.
  - injection Hp as <-. unfold addUser.
    destruct (String.eqb type "admin").
    + destruct (find_user _ (admins _)); simpl; exact Hinv.
    + destruct (find_user _ (students _)); simpl; [exact Hinv |].
      intros s r Hs Hr. apply in_app_or in Hs.
      destruct Hs as [Hs | [<- | []]]; [| destruct Hr].
      destruct (Hinv s r Hs Hr) as [c Hc]. now exists c.
  - destruct (registerCourse_Returns_inv _ _ _ _ Hp)
      as [[Hdata _] | (course & student & Hc & _ & _ & _ & ->)].
    + rewrite Hdata. exact Hinv.
    + simpl. intros s' r Hs' Hr.
      apply in_map_iff in Hs'. destruct Hs' as [s [<- Hs]].
      unfold add_registration in Hr.
      destruct (String.eqb (User.username s) u).
      * simpl in Hr. apply in_app_or in Hr. destruct Hr as [Hr | [<- | []]].
        -- destruct (Hinv s r Hs Hr) as [c Hc']. now exists c.
        -- exists course. now apply find_course_Some.
      * destruct (Hinv s r Hs Hr) as [c Hc']. now exists c.
  - injection Hp as <-. simpl. intros s' r Hs' Hr.
    apply in_map_iff in Hs'. destruct Hs' as [s [<- Hs]].
    unfold remove_registration in Hr.
    destruct (String.eqb (User.username s) u).
    + simpl in Hr. apply filter_In in Hr. destruct Hr as [Hr _].
      destruct (Hinv s r Hs Hr) as [c Hc']. now exists c.
    + destruct (Hinv s r Hs Hr) as [c Hc']. now exists c.
Qed.

Lemma perform_keeps_registrations_name_courses_witness :
  registrations_name_courses (data (deleteCourse "LAB001" labState)).
Proof.
  apply (perform_keeps_registrations_name_courses
           (DeleteCourse "LAB001") labState).
  - intros s r Hs Hr. simpl in Hs.
    destruct Hs as [<- | [<- | []]]; simpl in Hr.
    + destruct Hr as [<- | []]. exists LAB001. simpl. tauto.
    + destruct Hr.
  - reflexivity.
Defined.

(** * Session *)

Lemma find_app {A : Type} (p : A -> bool) (l1 l2 : list A) :
  find p (l1 ++ l2)
  = match find p l1 with
    | Some x => Some x
    | None => find p l2
    end.
Proof.
  induction l1 as [| x l1 IH]; simpl; [reflexivity |].
  now destruct (p x).
Qed.



(** X13. An account added by [addUser] can log in: when the username is
    free in the collection of its role, a [login] with the role, username
    and password of the new account, made on the store [addUser] returns,
    opens the session of that account (for a student, the account with an
    empty registration list). *)
Theorem addUser_then_login (type : string) (user : User.t) (ui : UiState) :
  ~ username_taken (User.username user)
                   (target_collection type (users (data (app ui)))) ->
  auth (login type (User.username user) (User.password user)
              {| app := addUser type user (app ui);
                 auth := auth ui; view := view ui |})
  = {| auth_type := Some type;
       auth_user := Some (if String.eqb type "admin" then user
                          else User.with_registrations user []) |}.
Proof.
  unfold target_collection, login, addUser. intros Hfree. simpl.
  destruct (String.eqb type "admin").
  - destruct (find_user _ (admins _)) as [a |] eqn:Hf.
    + destruct Hfree. apply username_taken_find. now exists a.
    + simpl. rewrite find_app.
      destruct (find _ (admins (users (data (app ui))))) as [x |] eqn:Hx.
      * apply find_some in Hx. destruct Hx as [Hin Hp].
        apply andb_true_iff in Hp. destruct Hp as [Hu _].
        apply String.eqb_eq in Hu. destruct Hfree. now exists x.
      * simpl. now rewrite !String.eqb_refl.
  - destruct (find_user _ (students _)) as [s |] eqn:Hf.
    + destruct Hfree. apply username_taken_find. now exists s.
    + simpl. rewrite find_app.
      destruct (find _ (students (users (data (app ui))))) as [x |] eqn:Hx.
      * apply find_some in Hx. destruct Hx as [Hin Hp].
        apply andb_true_iff in Hp. destruct Hp as [Hu _].
        apply String.eqb_eq in Hu. destruct Hfree. now exists x.
      * simpl. now rewrite !String.eqb_refl.
Qed.

Lemma addUser_then_login_witness :
  auth (login "admin" "student1" "secret"
              {| app := addUser "admin" student1_namesake defaultState;
                 auth := mkAuth None None; view := "home" |})
  = {| auth_type := Some "admin"; auth_user := Some student1_namesake |}.
Proof.
  apply (addUser_then_login "admin" student1_namesake
           {| app := defaultState; auth := mkAuth None None; view := "home" |}).
  intros [u [Hin Heq]]. simpl in Hin.
  destruct Hin as [<- | [<- | []]]; discriminate.
Defined.

(** * Student dashboard *)



(** X15. The button of a course row toggles.  After a click that reports
    "Unregistered" or "Registered successfully", the course is among the
    student's registrations exactly when it was not before, so the row shows
    the other button. *)
Theorem rowAction_toggles
        (me me' : User.t) (c : Course.t) (st st' : AppState) :
  find_user (User.username me) (students (users (data st))) = Some me ->
  rowAction me c st = Returns st' ->
  message st' = "Unregistered" \/ message st' = "Registered successfully" ->
  find_user (User.username me) (students (users (data st'))) = Some me' ->
  includes (or_empty (User.registrations me')) (Course.id c)
  = negb (includes (or_empty (User.registrations me)) (Course.id c)).
Proof.
  intros Hme Hrow Hmsg Hme'. unfold rowAction in Hrow.
  destruct (includes (or_empty (User.registrations me)) (Course.id c)) eqn:Hreg;
    simpl in Hrow.
  - injection Hrow as <-. rewrite unregisterCourse_data in Hme'. simpl in Hme'.
    rewrite (find_user_map _ _ _ (remove_registration_username _ _)), Hme in Hme'.
    injection Hme' as <-. unfold remove_registration.
    rewrite String.eqb_refl. simpl.
    destruct (includes (filter _ _) (Course.id c)) eqn:Hin; [| reflexivity].
    apply includes_In, filter_In in Hin. destruct Hin as [_ Hne].
    now rewrite String.eqb_refl in Hne.
  - destruct (registerCourse_Returns_inv _ _ _ _ Hrow)
      as [[_ Hno] | (course & student & _ & _ & _ & _ & ->)].
    + destruct Hmsg as [Hm | Hm]; [| contradiction].
      revert Hrow Hm. unfold registerCourse.
      destruct (find_course _ _) as [course |].
      * destruct (_ <=? _); [intros [= <-]; discriminate |].
        destruct (find_user _ _); [| discriminate].
        destruct (existsb _ _); intros [= <-]; discriminate.
      * intros [= <-]. discriminate.
    + simpl in Hme'.
      rewrite (find_user_map _ _ _ (add_registration_username _ _)), Hme in Hme'.
      injection Hme' as <-. unfold add_registration.
      rewrite String.eqb_refl. simpl. apply includes_last.
Qed.

Lemma rowAction_toggles_witness :
  includes (or_empty (User.registrations
                        (User.mk "student1" "student1" "Student One" (Some []))))
           (Course.id LAB001)
  = negb (includes (or_empty (User.registrations
                                (User.mk "student1" "student1" "Student One"
                                         (Some ["LAB001"]))))
                   (Course.id LAB001)).
Proof.
  apply (rowAction_toggles
           (User.mk "student1" "student1" "Student One" (Some ["LAB001"]))
           (User.mk "student1" "student1" "Student One" (Some []))
           LAB001 labState
           (unregisterCourse "student1" "LAB001" labState)).
  - reflexivity.
  - reflexivity.
  - left. reflexivity.
  - reflexivity.
Defined.

(** * Further properties of the admin actions *)

Lemma includes_filter_other (regs : list string) (id cid : string) :
  cid <> id ->
  includes (filter (fun r => negb (String.eqb r id)) regs) cid = includes regs cid.
Proof.
  intros Hne. apply eq_true_iff_eq. rewrite !includes_In, filter_In.
  rewrite negb_true_iff, String.eqb_neq. intuition congruence.
Qed.

(** X16. [deleteCourse id] frees every seat of [id] and touches no other
    count: afterwards no student is counted for [id], and for every other
    identifier the number of students registered is the same as before. *)
Theorem deleteCourse_seat_usage (id cid : string) (st : AppState) :
  seat_usage id (data (deleteCourse id st)) = 0%nat
  /\ (cid <> id ->
      seat_usage cid (data (deleteCourse id st)) = seat_usage cid (data st)).
Proof.
  unfold seat_usage, deleteCourse. simpl. split.
  - induction (students (users (data st))) as [| s l IH]; simpl; [reflexivity |].
    replace (registered id _) with false; [exact IH |].
    symmetry. unfold registered. simpl.
    destruct (User.registrations s) as [regs |]; [| reflexivity].
    destruct (includes _ id) eqn:Hin; [| reflexivity].
    apply includes_In, filter_In in Hin. destruct Hin as [_ Hne].
    now rewrite String.eqb_refl in Hne.
  - intros Hne. apply filter_map_length. intros s _.
    unfold registered. simpl.
    destruct (User.registrations s) as [regs |]; [| reflexivity].
    simpl. now apply includes_filter_other.
Qed.

Lemma deleteCourse_seat_usage_witness :
  seat_usage "LAB001" (data (deleteCourse "LAB001" labState)) = 0%nat
  /\ seat_usage "CSE101" (data (deleteCourse "LAB001" labState))
     = seat_usage "CSE101" (data labState).
Proof.
  destruct (deleteCourse_seat_usage "LAB001" "CSE101" labState) as [Hzero Hother].
  split; [exact Hzero | apply Hother; discriminate].
Defined.

Lemma find_course_app (cid : string) (us : Users) (l1 l2 : list Course.t) :
  find_course cid {| users := us; courses := l1 ++ l2 |}
  = match find_course cid {| users := us; courses := l1 |} with
    | Some c => Some c
    | None => find_course cid {| users := us; courses := l2 |}
    end.
Proof. unfold find_course. simpl. apply find_app. Qed.

(** X17. Looking a course up after an admin action.  After [addCourse c]
    the identifier of [c] resolves to the course that had it before, or to
    [c] when none had; after [updateCourse c] it resolves to [c] when some
    course had it; after [deleteCourse id] the identifier [id] resolves to
    nothing.  A lookup by any other identifier gives what it gave before
    the action. *)
Theorem find_course_after_admin_action (course : Course.t) (cid : string)
        (st : AppState) :
  find_course (Course.id course) (data (addCourse course st))
  = match find_course (Course.id course) (data st) with
    | Some old => Some old
    | None => Some course
    end
  /\ (course_exists (Course.id course) (data st) ->
      find_course (Course.id course) (data (updateCourse course st)) = Some course)
  /\ find_course cid (data (deleteCourse cid st)) = None
  /\ (cid <> Course.id course ->
      find_course cid (data (addCourse course st)) = find_course cid (data st)
      /\ find_course cid (data (updateCourse course st)) = find_course cid (data st)
      /\ find_course cid (data (deleteCourse (Course.id course) st))
         = find_course cid (data st)).
Proof.
  split; [| split; [| split]].
  - unfold addCourse.
    destruct (find_course (Course.id course) (data st)) as [old |] eqn:Hf;
      simpl; [assumption |].
    rewrite find_course_app.
    replace (find_course _ {| users := _; courses := courses (data st) |})
      with (find_course (Course.id course) (data st)) by reflexivity.
    rewrite Hf. unfold find_course. simpl. now rewrite String.eqb_refl.
  - intros [c [Hin Heq]]. unfold updateCourse, find_course. simpl.
    induction (courses (data st)) as [| x l IH]; simpl; [destruct Hin |].
    destruct (String.eqb (Course.id x) (Course.id course)) eqn:Hx.
    + now rewrite String.eqb_refl.
    + rewrite Hx. apply IH. destruct Hin as [-> | Hin]; [| assumption].
      apply String.eqb_neq in Hx. contradiction.
  - apply find_course_None. unfold deleteCourse. simpl. intros c Hin.
    apply filter_In in Hin. destruct Hin as [_ Hne].
    now apply negb_true_iff, String.eqb_neq in Hne.
  - intros Hne. split; [| split].
    + unfold addCourse.
      destruct (find_course (Course.id course) (data st)); [reflexivity |].
      simpl. rewrite find_course_app.
      replace (find_course _ {| users := _; courses := courses (data st) |})
        with (find_course cid (data st)) by reflexivity.
      destruct (find_course cid (data st)); [reflexivity |].
      unfold find_course. simpl.
      apply String.eqb_neq in Hne. rewrite String.eqb_sym in Hne.
      now rewrite Hne.
    + unfold updateCourse, find_course. simpl.
      induction (courses (data st)) as [| x l IH]; simpl; [reflexivity |].
      destruct (String.eqb (Course.id x) (Course.id course)) eqn:Hx.
      * apply String.eqb_eq in Hx.
        assert (H1 : String.eqb (Course.id course) cid = false)
          by (apply String.eqb_neq; congruence).
        assert (H2 : String.eqb (Course.id x) cid = false)
          by (apply String.eqb_neq; congruence).
        now rewrite H1, H2.
      * destruct (String.eqb (Course.id x) cid); [reflexivity | exact IH].
    + unfold deleteCourse, find_course. simpl.
      induction (courses (data st)) as [| x l IH]; simpl; [reflexivity |].
      destruct (String.eqb (Course.id x) (Course.id course)) eqn:Hx; simpl.
      * apply String.eqb_eq in Hx.
        assert (H2 : String.eqb (Course.id x) cid = false)
          by (apply String.eqb_neq; congruence).
        now rewrite H2.
      * destruct (String.eqb (Course.id x) cid); [reflexivity | exact IH].
Qed.

Lemma find_course_after_admin_action_witness :
  find_course "CSE101" (data (updateCourse (monday_course "CSE101" "08:00" "09:00")
                                           defaultState))
  = Some (monday_course "CSE101" "08:00" "09:00")
  /\ find_course "MAT201" (data (deleteCourse "CSE101" defaultState))
     = Some MAT201.
Proof.
  destruct (find_course_after_admin_action
              (monday_course "CSE101" "08:00" "09:00") "MAT201" defaultState)
    as (_ & Hupd & _ & Hother).
  split.
  - apply Hupd. exists CSE101. simpl. tauto.
  - destruct Hother as (_ & _ & Hdel); [discriminate |].
    etransitivity; [exact Hdel | reflexivity].
Defined.

(** * Timetable *)

Section Extremes.

Lemma fold_Math_min_NaN (l : list number) : fold_left Math_min l NaN = NaN.
Proof. induction l as [| x l IH]; simpl; [reflexivity | exact IH]. Qed.

Lemma fold_Math_max_NaN (l : list number) : fold_left Math_max l NaN = NaN.
Proof. induction l as [| x l IH]; simpl; [reflexivity | exact IH]. Qed.

Lemma fold_Math_min_In_NaN (l : list number) (x : number) :
  In NaN (x :: l) -> fold_left Math_min l x = NaN.
Proof.
  revert x. induction l as [| y l IH]; intros x Hin.
  - destruct Hin as [-> | []]. reflexivity.
  - simpl. destruct Hin as [-> | Hin].
    + apply fold_Math_min_NaN.
    + destruct x; [apply fold_Math_min_NaN |].
      destruct y; [apply fold_Math_min_NaN |].
      apply IH. simpl in Hin. destruct Hin as [Hin | Hin];
        [discriminate | now right].
Qed.




Lemma allTimes_In (courses : list Course.t) (t : number) :
  In t (allTimes courses)
  <-> exists c, In c courses
                /\ (t = timeToMinutes (Course.start c)
                    \/ t = timeToMinutes (Course.end_ c)).
Proof.
  unfold allTimes. rewrite in_flat_map. split.
  - intros [c [Hin Ht]]. exists c. simpl in Ht.
    split; [assumption |]. intuition congruence.
  - intros [c [Hin Ht]]. exists c. simpl.
    split; [assumption |]. intuition congruence.
Qed.

End Extremes.

(** X18. One unreadable time empties the timetable: when the start or the
    end of some course of the list is [NaN], the grid has no hour row at
    all, so no course of the list is drawn. *)
Theorem hours_empty_on_NaN (courses : list Course.t) (c : Course.t) :
  In c courses ->
  timeToMinutes (Course.start c) = NaN \/ timeToMinutes (Course.end_ c) = NaN ->
  hours courses = [].
Proof.
  intros Hin Hnan.
  assert (HinNaN : In NaN (allTimes courses)).
  { apply allTimes_In. exists c. split; [assumption |].
    destruct Hnan as [-> | ->]; tauto. }
  unfold hours, minTime.
  destruct (allTimes courses) as [| t ts]; [destruct HinNaN |].
  now rewrite (fold_Math_min_In_NaN ts t HinNaN).
Qed.

Lemma hours_empty_on_NaN_witness :
  hours [CSE101; monday_course "BAD" "9am" "10:00"] = [].
Proof.
  apply (hours_empty_on_NaN _ (monday_course "BAD" "9am" "10:00")).
  - simpl. tauto.
  - left. reflexivity.
Defined.



(** X20. A cell of the grid draws a course exactly when some course of the
    list meets on the day of the cell and starts within the hour of the
    cell, and the course drawn is such a course.  A course is therefore
    drawn only in the row of its start hour, and never when its start is
    [NaN]. *)
Theorem cellCourse_sound_complete (courses : list Course.t) (d : string) (h : Z) :
  (forall c, cellCourse courses d h = Some c ->
             In c courses /\ In d (Course.days c)
             /\ exists s, timeToMinutes (Course.start c) = Num s /\ s / 60 = h)
  /\ (cellCourse courses d h = None <->
      forall c s, In c courses -> In d (Course.days c) ->
                  timeToMinutes (Course.start c) = Num s -> s / 60 <> h).
Proof.
  unfold cellCourse. split.
  - intros c Hf. apply find_some in Hf. destruct Hf as [Hin Hp].
    apply andb_true_iff in Hp. destruct Hp as [Hd He].
    apply includes_In in Hd. split; [assumption |]. split; [assumption |].
    destruct (timeToMinutes (Course.start c)) as [| s]; [discriminate |].
    simpl in He. apply Z.eqb_eq in He. now exists s.
  - split.
    + intros Hf c s Hin Hd Hs Hh.
      apply (find_none _ _ Hf) in Hin.
      apply includes_In in Hd. rewrite Hd, Hs in Hin. simpl in Hin.
      apply Z.eqb_neq in Hin. contradiction.
    + intros Hno. destruct (find _ courses) as [c |] eqn:Hf; [| reflexivity].
      apply find_some in Hf. destruct Hf as [Hin Hp].
      apply andb_true_iff in Hp. destruct Hp as [Hd He].
      apply includes_In in Hd.
      destruct (timeToMinutes (Course.start c)) as [| s] eqn:Hs; [discriminate |].
      simpl in He. apply Z.eqb_eq in He.
      now destruct (Hno c s Hin Hd Hs).
Qed.

(** * Reading clock times *)

Section ClockStrings.

Lemma no_colon_cons (ch : ascii) (s : string) :
  no_colon (String ch s) <-> ch <> ":"%char /\ no_colon s.
Proof.
  unfold no_colon. simpl. split.
  - intros H. split; [apply H; now left | intros c Hc; apply H; now right].
  - intros [Hch Hs] c [<- | Hc]; [assumption | now apply Hs].
Qed.

Lemma split_no_colon (s : string) : no_colon s -> split ":" s = [s].
Proof.
  induction s as [| ch s IH]; intros Hs; simpl; [reflexivity |].
  apply no_colon_cons in Hs. destruct Hs as [Hch Hs].
  apply Ascii.eqb_neq in Hch. rewrite Hch, (IH Hs). reflexivity.
Qed.





Lemma digits_value_app (s1 s2 : string) (acc : Z) :
  digits_value (s1 ++ s2) acc
  = match digits_value s1 acc with
    | Some v => digits_value s2 v
    | None => None
    end.
Proof.
  revert acc. induction s1 as [| ch s1 IH]; intros acc; simpl; [reflexivity |].
  destruct (digit_value ch); [apply IH | reflexivity].
Qed.





End ClockStrings.

(** X21. A time without a colon is unreadable: [timeToMinutes] gives [NaN]
    for every string that has no colon in it, the minutes field being
    missing. *)
Theorem timeToMinutes_needs_colon (t : string) :
  no_colon t -> timeToMinutes t = NaN.
Proof.
  intros Ht. unfold timeToMinutes. rewrite (split_no_colon t Ht). simpl.
  now destruct (num_mul (Number t) (Num 60)).
Qed.

Lemma timeToMinutes_needs_colon_witness : timeToMinutes "0930" = NaN.
Proof.
  apply timeToMinutes_needs_colon.
  intros ch Hin. simpl in Hin.
  repeat (destruct Hin as [<- | Hin]; [discriminate |]). destruct Hin.
Defined.

(** X22. A course with an unreadable start or end never conflicts: when one
    of its two times is [NaN], [checkConflict] answers false against every
    course, in either argument order. *)
Theorem checkConflict_NaN_time (courseA courseB : Course.t) :
  timeToMinutes (Course.start courseA) = NaN
  \/ timeToMinutes (Course.end_ courseA) = NaN ->
  checkConflict courseA courseB = false /\ checkConflict courseB courseA = false.
Proof.
  intros Hnan.
  assert (Hab : checkConflict courseA courseB = false).
  { unfold checkConflict. rewrite timesOverlap_NaN; [| tauto].
    now destruct (negb _). }
  split; [exact Hab | now apply checkConflict_false_sym].
Qed.

Lemma checkConflict_NaN_time_witness :
  checkConflict (monday_course "BAD" "9am" "10:00") CSE101 = false
  /\ checkConflict CSE101 (monday_course "BAD" "9am" "10:00") = false.
Proof.
  apply checkConflict_NaN_time. left. reflexivity.
Defined.





(** X25. Seats are counted per student, not per entry.  In a store whose
    students have different usernames, an accepted registration of a student
    who already has the course in the registration list leaves the number of
    students registered for the course as it was. *)
Theorem registerCourse_again_keeps_usage
        (studentUsername courseId : string) (student : User.t)
        (st st' : AppState) :
  NoDup (map User.username (students (users (data st)))) ->
  find_user studentUsername (students (users (data st))) = Some student ->
  In courseId (or_empty (User.registrations student)) ->
  registerCourse studentUsername courseId st = Returns st' ->
  seat_usage courseId (data st') = seat_usage courseId (data st).
Proof.
  intros Hnd Hs Hreg Hr.
  destruct (registerCourse_Returns_inv _ _ _ _ Hr)
    as [[Hdata _] | (course & student0 & _ & _ & _ & _ & ->)].
  - now rewrite Hdata.
  - unfold seat_usage. simpl. apply filter_map_length. intros s Hin.
    rewrite registered_add_same.
    destruct (String.eqb (User.username s) studentUsername) eqn:Hu;
      [| reflexivity].
    apply String.eqb_eq in Hu. destruct (find_user_Some _ _ _ Hs) as [Hin' Hu'].
    assert (s = student)
      by (apply (NoDup_map_eq User.username (students (users (data st))));
          congruence).
    subst s. simpl. symmetry. now apply registered_In.
Qed.

Lemma registerCourse_again_keeps_usage_witness :
  seat_usage "SEM400"
    {| users :=
         {| admins := [];
            students := map (add_registration "student1" "SEM400")
                            (students (users (data seminarState))) |};
       courses := [SEM400] |}
  = seat_usage "SEM400" (data seminarState).
Proof.
  apply (registerCourse_again_keeps_usage
           "student1" "SEM400"
           (User.mk "student1" "student1" "Student One" (Some ["SEM400"]))
           seminarState
           {| data := _; message := "Registered successfully" |}).
  - simpl. repeat constructor; simpl; intuition discriminate.
  - reflexivity.
  - simpl. tauto.
  - reflexivity.
Defined.
